(** * TrademindAI front end: Mission Control and Dashboard pages

  A shallow embedding of the client-side logic of
  [frontend/src/pages/MissionControl.tsx] and
  [frontend/src/pages/Dashboard.tsx]: React state is threaded
  explicitly, an [async] handler is cut at its [await] into the part that
  runs on the click and the part that runs when the request settles, and
  [try]/[catch]/[finally] is a small state-and-exception monad. *)

From Stdlib Require Import List String ZArith QArith Bool Arith Lia.
From Stdlib Require Import DecimalString.
Import ListNotations.
Close Scope Q_scope.
Open Scope string_scope.

(** ** JavaScript values *)

Module Js.

(** A JS [number]. Finite doubles are rationals and IEEE comparison on
    them is exact, so comparisons against constants are modelled on [Q];
    the three non-finite values are kept apart. *)
Inductive number : Type :=
| NaN
| NegInfinity
| PosInfinity
| Finite (q : Q).

(** [a >= b]: false as soon as one side is [NaN]. *)
Definition ge (a b : number) : bool :=
  match a, b with
  | NaN, _ => false
  | _, NaN => false
  | PosInfinity, _ => true
  | NegInfinity, NegInfinity => true
  | NegInfinity, _ => false
  | Finite _, NegInfinity => true
  | Finite _, PosInfinity => false
  | Finite x, Finite y => Qle_bool y x
  end.

(** [a > b]. *)
Definition gt (a b : number) : bool :=
  match a, b with
  | NaN, _ => false
  | _, NaN => false
  | _, PosInfinity => false
  | PosInfinity, _ => true
  | NegInfinity, _ => false
  | Finite _, NegInfinity => true
  | Finite x, Finite y => negb (Qle_bool x y)
  end.

Definition of_Z (z : Z) : number := Finite (inject_Z z).

(** Truthiness of an optional string: [undefined] and [""] are falsy. *)
Definition truthy_string (s : option string) : bool :=
  match s with
  | None => false
  | Some s => negb (String.eqb s "")
  end.

(** [a === b] on [string | null]. *)
Definition strict_eq (a b : option string) : bool :=
  match a, b with
  | None, None => true
  | Some x, Some y => String.eqb x y
  | _, _ => false
  end.

(** Template-literal rendering of an array length. *)
Definition show_nat (n : nat) : string :=
  NilZero.string_of_uint (Nat.to_uint n).

(** What can be thrown. *)
Inductive error : Type :=
| Error (message : string)
| TypeError (message : string)
| SyntaxError (message : string).

(** [Array.prototype.map] with the index handed to the callback. *)
Fixpoint mapi_from {A B : Type} (f : A -> nat -> B) (i : nat) (l : list A)
  : list B :=
  match l with
  | [] => []
  | x :: l' => f x i :: mapi_from f (S i) l'
  end.

Definition mapi {A B : Type} (f : A -> nat -> B) (l : list A) : list B :=
  mapi_from f 0 l.

End Js.

(** ** Statements that may throw *)

Module Eff.

Inductive completion (A : Type) : Type :=
| Normal (a : A)
| Throw (e : Js.error).
Arguments Normal {A} a.
Arguments Throw {A} e.

(** State written before a [throw] stays written: the state is outside
    the completion. *)
Definition eff (W A : Type) : Type := W -> completion A * W.

Definition ret {W A} (a : A) : eff W A := fun w => (Normal a, w).

Definition bind {W A B} (m : eff W A) (k : A -> eff W B) : eff W B :=
  fun w =>
    match m w with
    | (Normal a, w') => k a w'
    | (Throw e, w') => (Throw e, w')
    end.

Definition throw {W A} (e : Js.error) : eff W A := fun w => (Throw e, w).

Definition modify {W} (f : W -> W) : eff W unit := fun w => (Normal tt, f w).

Definition when {W} (b : bool) (m : eff W unit) : eff W unit :=
  if b then m else ret tt.

(** [try { body } catch (err) { handler(err) } finally { fin }]. *)
Definition try_catch_finally {W}
    (body : eff W unit) (handler : Js.error -> eff W unit) (fin : eff W unit)
  : eff W unit :=
  fun w =>
    let '(c, w1) :=
      match body w with
      | (Normal a, w') => (Normal a, w')
      | (Throw e, w') => handler e w'
      end in
    match fin w1 with
    | (Normal _, w2) => (c, w2)
    | (Throw e, w2) => (Throw e, w2)
    end.

Definition exec {W A} (m : eff W A) (w : W) : W := snd (m w).

Definition returns_normally {W A} (m : eff W A) (w : W) : Prop :=
  exists a, fst (m w) = Normal a.

Module Notations.
Notation "x <- m ;; k" := (bind m (fun x => k))
  (at level 61, m at next level, right associativity).
Notation "m ;; k" := (bind m (fun _ => k))
  (at level 61, right associativity).
End Notations.

End Eff.

(** ** The [fetch] boundary *)

Module Http.

(** [res.json()] either yields the decoded payload or rejects. *)
Inductive body (A : Type) : Type :=
| Unparseable
| Parsed (data : A).
Arguments Unparseable {A}.
Arguments Parsed {A} data.

Record response (A : Type) : Type := mkResponse {
  ok : bool;
  status : Z;
  payload : body A
}.
Arguments mkResponse {A}.
Arguments ok {A}.
Arguments status {A}.
Arguments payload {A}.

(** How the promise returned by [fetch] settles. *)
Inductive settlement (A : Type) : Type :=
| Rejects (reason : Js.error)
| Resolves (res : response A).
Arguments Rejects {A} reason.
Arguments Resolves {A} res.

(** A failed request: transport failure, or a response whose status is
    not a success status. *)
Definition failed {A} (o : settlement A) : bool :=
  match o with
  | Rejects _ => true
  | Resolves res => negb (ok res)
  end.

(** The payload the handler gets to use: the response is ok and its body
    decodes. *)
Definition delivered {A} (o : settlement A) : option A :=
  match o with
  | Rejects _ => None
  | Resolves res =>
      if ok res then
        match payload res with
        | Parsed data => Some data
        | Unparseable => None
        end
      else None
  end.

Definition await_fetch {W A} (o : settlement A) : Eff.eff W (response A) :=
  match o with
  | Rejects reason => Eff.throw reason
  | Resolves res => Eff.ret res
  end.

Definition json {W A} (res : response A) : Eff.eff W A :=
  match payload res with
  | Unparseable => Eff.throw (Js.SyntaxError "Unexpected token in JSON")
  | Parsed data => Eff.ret data
  end.

End Http.

(** ** Toasts, console, timers: what the handlers do to the browser *)

Inductive toast : Type :=
| ToastSuccess (message : string)
| ToastInfo (message : string)
| ToastError (message : string).

Record browser : Type := mkBrowser {
  toasts : list toast;          (* notices shown, oldest first *)
  console : list Js.error;      (* console.error calls *)
  intervals : nat               (* live setInterval handles *)
}.

Definition browser0 : browser :=
  {| toasts := []; console := []; intervals := 0 |}.

Definition push_toast (t : toast) (b : browser) : browser :=
  {| toasts := toasts b ++ [t]; console := console b; intervals := intervals b |}.

Definition log_error (e : Js.error) (b : browser) : browser :=
  {| toasts := toasts b; console := console b ++ [e]; intervals := intervals b |}.

Definition setInterval (b : browser) : browser :=
  {| toasts := toasts b; console := console b; intervals := S (intervals b) |}.

Definition clearInterval (b : browser) : browser :=
  {| toasts := toasts b; console := console b; intervals := pred (intervals b) |}.

(** ** Types of [MissionControl.tsx] *)

Record TradePlan : Type := mkTradePlan {
  market_id : string;
  event_ticker : string;
  title : string;
  category : string;
  side : string;
  entry_price : Js.number;
  exit_price : Js.number;
  stop_loss : Js.number;
  potential_profit_cents : Js.number;
  potential_loss_cents : Js.number;
  risk_reward_ratio : Js.number;
  expiry_time : option string;
  hours_to_expiry : Js.number;
  is_0dte : bool;
  fee_per_contract : Js.number;
  net_profit_after_fees : Js.number;
  settlement_source : string;
  implied_win_rate : Js.number;
  suggested_contracts : Js.number;
  max_risk_dollars : Js.number
}.

Record ThoughtStep : Type := mkThoughtStep {
  step_number : Js.number;
  thought : string;
  timestamp : string;
  search_query : option string
}.

(** [recommendation] and [confidence] are string unions in the interface;
    they arrive as JSON strings and the colour helpers take any [string]. *)
Record Strategy1VerifiedTrade : Type := mkVerifiedTrade {
  trade : TradePlan;
  source_name : string;
  source_url : string;
  source_data : string;
  kalshi_rule : string;
  current_value : option string;
  threshold : option string;
  distance_to_threshold : option string;
  ai_true_probability : Js.number;
  market_implied_probability : Js.number;
  edge : Js.number;
  recommendation : string;
  confidence : string;
  reasoning : string;
  risk_factors : list string;
  time_sensitivity : string;
  adjusted_contracts : Js.number;
  adjusted_risk_dollars : Js.number;
  thought_chain : option (list ThoughtStep);
  reasoning_audit : option string;
  web_searches_performed : option Js.number
}.

Record Strategy1VerifyResponse : Type := mkVerifyResponse {
  scan_time : string;
  total_scanned : Js.number;
  top_opportunities : list Strategy1VerifiedTrade;
  summary : string
}.

(** The payload of [/strategy1/scan]; the handler itself allows for a
    missing [trades] ([data.trades || []]). *)
Record ScanResponse : Type := mkScanResponse {
  trades : option (list TradePlan)
}.

Inductive icon : Type :=
| IconSearch | IconGlobe | IconDatabase | IconCalculator | IconAward.

Record TimelineStep : Type := mkTimelineStep {
  id : string;
  label : string;
  step_icon : icon
}.

Definition timelineSteps : list TimelineStep :=
  [ {| id := "scan"; label := "Scanning Markets"; step_icon := IconSearch |};
    {| id := "source"; label := "Locating Sources"; step_icon := IconGlobe |};
    {| id := "extract"; label := "Extracting Data"; step_icon := IconDatabase |};
    {| id := "calculate"; label := "Calculating Edge"; step_icon := IconCalculator |};
    {| id := "rank"; label := "Ranking Trades"; step_icon := IconAward |} ].

(** [timelineSteps.length]. *)
Definition N : Z := Z.of_nat (List.length timelineSteps).

(** ** Helper functions *)

Definition getRecommendationColor (rec : string) : string :=
  if String.eqb rec "EXECUTE" then
    "text-emerald-400 bg-emerald-500/20 border-emerald-500/30"
  else if String.eqb rec "SKIP" then
    "text-rose-400 bg-rose-500/20 border-rose-500/30"
  else if String.eqb rec "WAIT" then
    "text-amber-400 bg-amber-500/20 border-amber-500/30"
  else "text-muted-foreground bg-muted".

Definition getConfidenceColor (conf : string) : string :=
  if String.eqb conf "HIGH" then "text-emerald-400"
  else if String.eqb conf "MEDIUM" then "text-amber-400"
  else if String.eqb conf "LOW" then "text-rose-400"
  else "text-muted-foreground".

Definition getEdgeColor (edge : Js.number) : string :=
  if Js.ge edge (Js.of_Z 5) then "text-emerald-400"
  else if Js.ge edge (Js.of_Z 0) then "text-amber-400"
  else "text-rose-400".

(** The three colour tiers of the edge display, by the name the design
    gives them. *)
Definition strong_positive_tier : string := "text-emerald-400".
Definition marginal_tier : string := "text-amber-400".
Definition negative_tier : string := "text-rose-400".

(** ** [VerifiedTradeCard] *)

Module VerifiedTradeCard.

Record props : Type := mkProps {
  verified : Strategy1VerifiedTrade;
  rank : nat;
  isExpanded : bool
}.

Record step_view : Type := mkStepView {
  step_heading : Js.number;           (* STEP {step.step_number} *)
  step_text : string;
  step_search : option string         (* Searching for: "..." *)
}.

(** What the scrolling body of the audit card holds. *)
Inductive audit_body : Type :=
| ChainSteps (steps : list step_view)
| FallbackText (text : option string).

Record audit_card : Type := mkAuditCard {
  web_search_badge : option Js.number;
  audit : audit_body
}.

Definition render_step (step : ThoughtStep) : step_view :=
  {| step_heading := step_number step;
     step_text := thought step;
     step_search :=
       if Js.truthy_string (search_query step) then search_query step else None |}.

(** [verified.thought_chain && verified.thought_chain.length > 0]. *)
Definition has_chain (v : Strategy1VerifiedTrade) : bool :=
  match thought_chain v with
  | None => false
  | Some steps => Nat.ltb 0 (List.length steps)
  end.

(** The "Thought Signatures & Search Audit" card, or [null]. *)
Definition render_audit (v : Strategy1VerifiedTrade) : option audit_card :=
  if has_chain v || Js.truthy_string (reasoning_audit v) then
    Some
      {| web_search_badge :=
           match web_searches_performed v with
           | Some n => if Js.gt n (Js.of_Z 0) then Some n else None
           | None => None
           end;
         audit :=
           if has_chain v then
             ChainSteps (map render_step
                           (match thought_chain v with
                            | Some steps => steps
                            | None => []
                            end))
           else
             (* Fallback to text string if structured chain missing *)
             FallbackText (reasoning_audit v) |}
  else None.

Record header : Type := mkHeader {
  rank_badge : nat;
  rank_class : string;
  recommendation_class : string;
  confidence_class : string;
  edge_class : string;
  edge_sign : string;
  heading : string
}.

Record evidence : Type := mkEvidence {
  edge_border : string;
  reasoning_text : string;
  risks : list string;
  audit_trail : option audit_card
}.

Record view : Type := mkView {
  card_key : string;
  card_header : header;
  card_evidence : option evidence     (* only when expanded *)
}.

Definition render (p : props) : view :=
  let v := verified p in
  {| card_key := market_id (trade v);
     card_header :=
       {| rank_badge := rank p;
          rank_class :=
            if Nat.eqb (rank p) 1 then "bg-amber-500 text-white"
            else if Nat.eqb (rank p) 2 then "bg-slate-400 text-white"
            else "bg-orange-700 text-white";
          recommendation_class := getRecommendationColor (recommendation v);
          confidence_class := getConfidenceColor (confidence v);
          edge_class := getEdgeColor (edge v);
          edge_sign := if Js.gt (edge v) (Js.of_Z 0) then "+" else "";
          heading := title (trade v) |};
     card_evidence :=
       if isExpanded p then
         Some
           {| edge_border :=
                if Js.ge (edge v) (Js.of_Z 5) then
                  "border-emerald-500/50 bg-emerald-500/5"
                else if Js.ge (edge v) (Js.of_Z 0) then
                  "border-amber-500/50 bg-amber-500/5"
                else "border-rose-500/50 bg-rose-500/5";
              reasoning_text := reasoning v;
              risks := risk_factors v;
              audit_trail := render_audit v |}
       else None |}.

End VerifiedTradeCard.

(** ** Component state over the browser *)

(** A component's handlers run over its own React state and the browser. *)
Definition world (S : Type) : Type := (S * browser)%type.

Definition set_state {S} (f : S -> S) : Eff.eff (world S) unit :=
  Eff.modify (fun w => (f (fst w), snd w)).

Definition set_browser {S} (f : browser -> browser) : Eff.eff (world S) unit :=
  Eff.modify (fun w => (fst w, f (snd w))).

Definition toast_success {S} (m : string) : Eff.eff (world S) unit :=
  set_browser (push_toast (ToastSuccess m)).

Definition toast_info {S} (m : string) : Eff.eff (world S) unit :=
  set_browser (push_toast (ToastInfo m)).

Definition toast_error {S} (m : string) : Eff.eff (world S) unit :=
  set_browser (push_toast (ToastError m)).

Definition console_error {S} (e : Js.error) : Eff.eff (world S) unit :=
  set_browser (log_error e).

(** Runs a handler on a given settlement: unfolds the monad and the
    browser effects. *)
Ltac run_handler :=
  unfold Eff.try_catch_finally, Eff.bind, Eff.when, Eff.ret, Eff.throw,
    Eff.modify, Http.await_fetch, Http.json,
    set_state, set_browser, toast_success, toast_info, toast_error,
    console_error, Eff.exec;
  simpl.

(** ** [MarketMonitor] *)

Module MarketMonitor.
Import Eff.Notations.

Record state : Type := mkState {
  opportunities : list TradePlan;
  isLoading : bool;
  searchQuery : string
}.

Definition initial : state :=
  {| opportunities := []; isLoading := false; searchQuery := "" |}.

Definition setOpportunities (l : list TradePlan) (s : state) : state :=
  {| opportunities := l; isLoading := isLoading s; searchQuery := searchQuery s |}.

Definition setIsLoading (b : bool) (s : state) : state :=
  {| opportunities := opportunities s; isLoading := b; searchQuery := searchQuery s |}.

Definition setSearchQuery (q : string) (s : state) : state :=
  {| opportunities := opportunities s; isLoading := isLoading s; searchQuery := q |}.

(** [data.trades.length]: a [TypeError] when [trades] is missing. *)
Definition trades_length (data : ScanResponse) : Eff.eff (world state) nat :=
  match trades data with
  | Some l => Eff.ret (List.length l)
  | None =>
      Eff.throw (Js.TypeError "Cannot read properties of undefined (reading 'length')")
  end.

(** [fetchOpportunities] up to its [await fetch(...)]. *)
Definition fetchOpportunities_start : Eff.eff (world state) unit :=
  set_state (setIsLoading true).

(** [fetchOpportunities] from the moment the request settles ([fetch] and
    [res.json()] taken together). *)
Definition fetchOpportunities_settle (o : Http.settlement ScanResponse)
  : Eff.eff (world state) unit :=
  Eff.try_catch_finally
    (res <- Http.await_fetch o ;;
     Eff.when (negb (Http.ok res)) (Eff.throw (Js.Error "Backend scan failed")) ;;
     data <- Http.json res ;;
     set_state (setOpportunities (match trades data with Some l => l | None => [] end)) ;;
     n <- trades_length data ;;
     Eff.when (Nat.ltb 0 n)
       (toast_success ("Found " ++ Js.show_nat n ++ " opportunities")))
    (fun err =>
       toast_error "Strategy Engine Offline" ;;
       console_error err)
    (set_state (setIsLoading false)).

End MarketMonitor.

(** ** [AIVerificationPanel] *)

Module AIVerificationPanel.
Import Eff.Notations.

Record state : Type := mkState {
  isLoading : bool;
  response : option Strategy1VerifyResponse;
  currentStep : Z;
  expandedId : option string
}.

Definition initial : state :=
  {| isLoading := false; response := None; currentStep := 0; expandedId := None |}.

Definition setIsLoading (b : bool) (s : state) : state :=
  {| isLoading := b; response := response s;
     currentStep := currentStep s; expandedId := expandedId s |}.

Definition setResponse (r : option Strategy1VerifyResponse) (s : state) : state :=
  {| isLoading := isLoading s; response := r;
     currentStep := currentStep s; expandedId := expandedId s |}.

(** [setCurrentStep] in its updater form; a plain value is a constant updater. *)
Definition setCurrentStep (f : Z -> Z) (s : state) : state :=
  {| isLoading := isLoading s; response := response s;
     currentStep := f (currentStep s); expandedId := expandedId s |}.

Definition setExpandedId (i : option string) (s : state) : state :=
  {| isLoading := isLoading s; response := response s;
     currentStep := currentStep s; expandedId := i |}.

(** The callback handed to [setInterval]. *)
Definition stepInterval_tick (s : state) : state :=
  setCurrentStep (fun prev => Z.min (prev + 1) (N - 1)) s.

(** [fetchTop3] up to its [await fetch(...)]. *)
Definition fetchTop3_start : Eff.eff (world state) unit :=
  set_state (setIsLoading true) ;;
  set_state (setCurrentStep (fun _ => 0%Z)) ;;
  set_state (setResponse None) ;;
  set_state (setExpandedId None) ;;
  set_browser setInterval.

(** [fetchTop3] from the moment the request settles. The two awaits
    ([fetch], then [res.json()]) are one settlement: a timer tick between
    them is a tick before the settlement. *)
Definition fetchTop3_settle (o : Http.settlement Strategy1VerifyResponse)
  : Eff.eff (world state) unit :=
  Eff.try_catch_finally
    (res <- Http.await_fetch o ;;
     Eff.when (negb (Http.ok res)) (Eff.throw (Js.Error "Verification failed")) ;;
     data <- Http.json res ;;
     set_browser clearInterval ;;
     set_state (setCurrentStep (fun _ => N)) ;;
     set_state (setResponse (Some data)) ;;
     let execCount :=
       List.length
         (filter (fun t => String.eqb (recommendation t) "EXECUTE")
                 (top_opportunities data)) in
     (if Nat.ltb 0 execCount then
        toast_success ("Found " ++ Js.show_nat execCount ++ " executable trades!")
      else if Nat.ltb 0 (List.length (top_opportunities data)) then
        toast_info "Analysis complete - review recommendations"
      else
        toast_info "No opportunities found right now") ;;
     (* Auto-expand the first one *)
     match top_opportunities data with
     | first :: _ => set_state (setExpandedId (Some (market_id (trade first))))
     | [] => Eff.ret tt
     end)
    (fun err =>
       set_browser clearInterval ;;
       toast_error "Verification failed" ;;
       console_error err)
    (set_state (setIsLoading false)).

Definition toggleExpand (marketId : string) (s : state) : state :=
  setExpandedId
    (if Js.strict_eq (expandedId s) (Some marketId) then None else Some marketId)
    s.

(** *** What the panel renders *)

Record progress_cell : Type := mkCell {
  cell_id : string;
  isComplete : bool;
  isCurrent : bool
}.

Record view : Type := mkView {
  button_disabled : bool;
  timeline : option (list progress_cell);       (* only while loading *)
  cards : list VerifiedTradeCard.props;
  empty_result : bool;                          (* "No opportunities found" *)
  idle : bool;                                  (* "AI Ready" *)
  footer : option string
}.

Definition is_some {A} (o : option A) : bool :=
  match o with Some _ => true | None => false end.

Definition render (s : state) : view :=
  {| button_disabled := isLoading s;
     timeline :=
       if isLoading s then
         Some (Js.mapi
                 (fun step i =>
                    {| cell_id := id step;
                       isComplete := Z.ltb (Z.of_nat i) (currentStep s);
                       isCurrent := Z.eqb (Z.of_nat i) (currentStep s) |})
                 timelineSteps)
       else None;
     cards :=
       match response s with
       | Some r =>
           Js.mapi
             (fun verified i =>
                {| VerifiedTradeCard.verified := verified;
                   VerifiedTradeCard.rank := i + 1;
                   VerifiedTradeCard.isExpanded :=
                     Js.strict_eq (expandedId s) (Some (market_id (trade verified))) |})
             (top_opportunities r)
       | None => []
       end;
     empty_result :=
       match response s with
       | Some r => Nat.eqb (List.length (top_opportunities r)) 0
       | None => false
       end;
     idle := negb (isLoading s) && negb (is_some (response s));
     footer := option_map summary (response s) |}.

(** Identifiers of the cards shown open. *)
Definition expanded_set (s : state) : list string :=
  map (fun p => market_id (trade (VerifiedTradeCard.verified p)))
      (filter VerifiedTradeCard.isExpanded (cards (render s))).

End AIVerificationPanel.

(** ** The [MissionControl] page *)

Module MissionControl.

(** The page keeps the list selection; each panel keeps its own state.
    The two pending flags are the promises of the requests in flight. *)
Record page : Type := mkPage {
  selectedOpportunity : option TradePlan;
  monitor : MarketMonitor.state;
  panel : AIVerificationPanel.state;
  env : browser;
  scan_pending : bool;
  verify_pending : bool
}.

Definition initial : page :=
  {| selectedOpportunity := None;
     monitor := MarketMonitor.initial;
     panel := AIVerificationPanel.initial;
     env := browser0;
     scan_pending := false;
     verify_pending := false |}.

(** [selectedId={selectedOpportunity?.market_id ?? null}]. *)
Definition selectedId (p : page) : option string :=
  option_map market_id (selectedOpportunity p).

Definition setSelectedOpportunity (o : option TradePlan) (p : page) : page :=
  {| selectedOpportunity := o; monitor := monitor p; panel := panel p;
     env := env p; scan_pending := scan_pending p;
     verify_pending := verify_pending p |}.

Definition with_monitor (w : world MarketMonitor.state) (pending : bool)
    (p : page) : page :=
  {| selectedOpportunity := selectedOpportunity p; monitor := fst w;
     panel := panel p; env := snd w; scan_pending := pending;
     verify_pending := verify_pending p |}.

Definition with_panel (w : world AIVerificationPanel.state) (pending : bool)
    (p : page) : page :=
  {| selectedOpportunity := selectedOpportunity p; monitor := monitor p;
     panel := fst w; env := snd w; scan_pending := scan_pending p;
     verify_pending := pending |}.

Definition monitor_world (p : page) : world MarketMonitor.state :=
  (monitor p, env p).

Definition panel_world (p : page) : world AIVerificationPanel.state :=
  (panel p, env p).

(** What can happen to the page: clicks, keystrokes, the step timer firing,
    and the two requests settling. *)
Inductive event : Type :=
| ClickScan
| ScanSettles (o : Http.settlement ScanResponse)
| TypeFilter (q : string)
| ClickOpportunity (i : nat)
| ClickVerify
| TimerTick
| VerifySettles (o : Http.settlement Strategy1VerifyResponse)
| ClickVerified (i : nat).

(** One event, or [None] when the page does not offer it: both buttons
    are disabled while their request is loading, a card can be clicked only
    where one is rendered, the timer fires only while its handle is live.
    The text filter of the flat list only hides cards, so every card that
    can be clicked is one of [opportunities]. *)
Definition step (p : page) (e : event) : option page :=
  match e with
  | ClickScan =>
      if MarketMonitor.isLoading (monitor p) then None
      else Some (with_monitor
                   (Eff.exec MarketMonitor.fetchOpportunities_start (monitor_world p))
                   true p)
  | ScanSettles o =>
      if scan_pending p then
        Some (with_monitor
                (Eff.exec (MarketMonitor.fetchOpportunities_settle o) (monitor_world p))
                false p)
      else None
  | TypeFilter q =>
      Some (with_monitor
              (MarketMonitor.setSearchQuery q (monitor p), env p)
              (scan_pending p) p)
  | ClickOpportunity i =>
      if MarketMonitor.isLoading (monitor p) then None
      else
        match nth_error (MarketMonitor.opportunities (monitor p)) i with
        | Some opp => Some (setSelectedOpportunity (Some opp) p)
        | None => None
        end
  | ClickVerify =>
      if AIVerificationPanel.isLoading (panel p) then None
      else Some (with_panel
                   (Eff.exec AIVerificationPanel.fetchTop3_start (panel_world p))
                   true p)
  | TimerTick =>
      if Nat.ltb 0 (intervals (env p)) then
        Some (with_panel
                (AIVerificationPanel.stepInterval_tick (panel p), env p)
                (verify_pending p) p)
      else None
  | VerifySettles o =>
      if verify_pending p then
        Some (with_panel
                (Eff.exec (AIVerificationPanel.fetchTop3_settle o) (panel_world p))
                false p)
      else None
  | ClickVerified i =>
      match nth_error (AIVerificationPanel.cards
                         (AIVerificationPanel.render (panel p))) i with
      | Some card =>
          Some (with_panel
                  (AIVerificationPanel.toggleExpand
                     (market_id (trade (VerifiedTradeCard.verified card)))
                     (panel p), env p)
                  (verify_pending p) p)
      | None => None
      end
  end.

Fixpoint run (p : page) (evs : list event) : option page :=
  match evs with
  | [] => Some p
  | e :: evs' =>
      match step p e with
      | Some p' => run p' evs'
      | None => None
      end
  end.

(** A state the page can be in: reached from the first render. *)
Definition reachable (p : page) : Prop :=
  exists evs, run initial evs = Some p.

End MissionControl.

(** ** The [Dashboard] page: ticker input and recent searches *)

Module Dashboard.
Import Eff.Notations.

Record strategy_t : Type := mkStrategy {
  entryPrice : Js.number;
  exitPrice : Js.number;
  stopLoss : Js.number;
  confidence_pct : Js.number;
  reasoning_trace : option string;
  audit_text : option string
}.

Record state : Type := mkState {
  selectedTicker : string;
  analyzedTicker : option string;
  recentSearches : list string;
  isAnalyzing : bool;
  strategy : option strategy_t
}.

Definition initial : state :=
  {| selectedTicker := "AAPL"; analyzedTicker := None; recentSearches := [];
     isAnalyzing := false; strategy := None |}.

Definition setSelectedTicker (t : string) (s : state) : state :=
  {| selectedTicker := t; analyzedTicker := analyzedTicker s;
     recentSearches := recentSearches s; isAnalyzing := isAnalyzing s;
     strategy := strategy s |}.

Definition setAnalyzedTicker (t : option string) (s : state) : state :=
  {| selectedTicker := selectedTicker s; analyzedTicker := t;
     recentSearches := recentSearches s; isAnalyzing := isAnalyzing s;
     strategy := strategy s |}.

Definition setRecentSearches (f : list string -> list string) (s : state) : state :=
  {| selectedTicker := selectedTicker s; analyzedTicker := analyzedTicker s;
     recentSearches := f (recentSearches s); isAnalyzing := isAnalyzing s;
     strategy := strategy s |}.

Definition setIsAnalyzing (b : bool) (s : state) : state :=
  {| selectedTicker := selectedTicker s; analyzedTicker := analyzedTicker s;
     recentSearches := recentSearches s; isAnalyzing := b;
     strategy := strategy s |}.

Definition setStrategy (st : option strategy_t) (s : state) : state :=
  {| selectedTicker := selectedTicker s; analyzedTicker := analyzedTicker s;
     recentSearches := recentSearches s; isAnalyzing := isAnalyzing s;
     strategy := st |}.

(** The updater handed to [setRecentSearches] for ticker [t]. *)
Definition add_recent (t : string) (prev : list string) : list string :=
  let filtered := filter (fun x => negb (String.eqb x t)) prev in
  firstn 5 (t :: filtered).

(** [handleAnalyze] up to its [await fetch(...)]; [false] when the guard on
    an empty ticker returned early, so that no request was sent. *)
Definition handleAnalyze_start : Eff.eff (world state) bool :=
  fun w =>
    let selected := selectedTicker (fst w) in
    if String.eqb selected "" then
      (toast_error "Please enter a ticker symbol." ;; Eff.ret false) w
    else
      (set_state (setIsAnalyzing true) ;;
       set_state (setStrategy None) ;;
       (* 1. Trigger the Chart Update *)
       set_state (setAnalyzedTicker (Some selected)) ;;
       (* 2. Add to Recent History *)
       set_state (setRecentSearches (add_recent selected)) ;;
       Eff.ret true) w.

(** [handleAnalyze] from the moment the request settles. Turning the JSON
    payload into the strategy record is float parsing and rounding; the
    settlement carries the record that [setStrategy] receives. *)
Definition handleAnalyze_settle (o : Http.settlement strategy_t)
  : Eff.eff (world state) unit :=
  Eff.try_catch_finally
    (res <- Http.await_fetch o ;;
     Eff.when (negb (Http.ok res))
       (console_error (Js.Error "API Error:") ;;
        Eff.throw (Js.Error "Analysis failed")) ;;
     data <- Http.json res ;;
     set_state (setStrategy (Some data)) ;;
     toast_success "Strategy generated successfully!")
    (fun error =>
       console_error error ;;
       toast_error "Failed to generate strategy.")
    (set_state (setIsAnalyzing false)).

Record page : Type := mkPage {
  ui : state;
  env : browser;
  pending : bool
}.

Definition initial_page : page :=
  {| ui := initial; env := browser0; pending := false |}.

Inductive event : Type :=
| SetTicker (t : string)        (* typing, submitting, picking a scout result *)
| ClickRecent (i : nat)         (* a badge of the recent list *)
| ClickAnalyze
| AnalyzeSettles (o : Http.settlement strategy_t).

Definition step (p : page) (e : event) : option page :=
  match e with
  | SetTicker t => Some {| ui := setSelectedTicker t (ui p); env := env p;
                           pending := pending p |}
  | ClickRecent i =>
      match nth_error (recentSearches (ui p)) i with
      | Some t => Some {| ui := setSelectedTicker t (ui p); env := env p;
                          pending := pending p |}
      | None => None
      end
  | ClickAnalyze =>
      if isAnalyzing (ui p) then None
      else
        let '(c, w) := handleAnalyze_start (ui p, env p) in
        Some {| ui := fst w; env := snd w;
                pending := match c with
                           | Eff.Normal sent => sent
                           | Eff.Throw _ => false
                           end |}
  | AnalyzeSettles o =>
      if pending p then
        let w := Eff.exec (handleAnalyze_settle o) (ui p, env p) in
        Some {| ui := fst w; env := snd w; pending := false |}
      else None
  end.

Fixpoint run (p : page) (evs : list event) : option page :=
  match evs with
  | [] => Some p
  | e :: evs' =>
      match step p e with
      | Some p' => run p' evs'
      | None => None
      end
  end.

End Dashboard.

(** ** Sample data *)

Module Sample.

Definition zero : Js.number := Js.of_Z 0.

Definition plan (market : string) : TradePlan :=
  {| market_id := market; event_ticker := "KX" ++ market; title := "Market " ++ market;
     category := "Crypto"; side := "YES";
     entry_price := Js.of_Z 40; exit_price := Js.of_Z 60; stop_loss := Js.of_Z 30;
     potential_profit_cents := Js.of_Z 20; potential_loss_cents := Js.of_Z 10;
     risk_reward_ratio := Js.of_Z 2; expiry_time := None;
     hours_to_expiry := Js.of_Z 6; is_0dte := true;
     fee_per_contract := Js.of_Z 1; net_profit_after_fees := Js.of_Z 19;
     settlement_source := "exchange"; implied_win_rate := Js.of_Z 40;
     suggested_contracts := Js.of_Z 10; max_risk_dollars := Js.of_Z 1 |}.

Definition verified_trade (market : string) (e : Z) (rec : string)
    (chain : option (list ThoughtStep)) (fallback : option string)
  : Strategy1VerifiedTrade :=
  {| trade := plan market; source_name := "feed"; source_url := "";
     source_data := "spot"; kalshi_rule := "rule";
     current_value := None; threshold := None; distance_to_threshold := None;
     ai_true_probability := Js.of_Z (40 + e);
     market_implied_probability := Js.of_Z 40;
     edge := Js.of_Z e; recommendation := rec; confidence := "HIGH";
     reasoning := "because"; risk_factors := []; time_sensitivity := "today";
     adjusted_contracts := Js.of_Z 5; adjusted_risk_dollars := Js.of_Z 1;
     thought_chain := chain; reasoning_audit := fallback;
     web_searches_performed := None |}.

Definition thought1 : ThoughtStep :=
  {| step_number := Js.of_Z 1; thought := "look up spot price";
     timestamp := "t0"; search_query := Some "btc spot" |}.

(** A trade whose chain field is present but holds no step. *)
Definition empty_chain_trade : Strategy1VerifiedTrade :=
  verified_trade "A" 8 "EXECUTE" (Some []) (Some "raw audit text").

(** A trade with an empty chain and an empty fallback string. *)
Definition empty_chain_empty_fallback : Strategy1VerifiedTrade :=
  verified_trade "A" 8 "EXECUTE" (Some []) (Some "").

Definition chained_trade : Strategy1VerifiedTrade :=
  verified_trade "A" 8 "EXECUTE" (Some [thought1]) (Some "raw audit text").

(** The scenario of the design: A with edge 8 followed by B with edge 3,
    and the same two in the other order. *)
Definition tradeA : Strategy1VerifiedTrade := verified_trade "A" 8 "EXECUTE" None None.
Definition tradeB : Strategy1VerifiedTrade := verified_trade "B" 3 "WAIT" None None.

Definition verify_response (l : list Strategy1VerifiedTrade) : Strategy1VerifyResponse :=
  {| scan_time := "2024-01-01T00:00:00Z"; total_scanned := Js.of_Z 12;
     top_opportunities := l; summary := "done" |}.

Definition verify_ok (l : list Strategy1VerifiedTrade)
  : Http.settlement Strategy1VerifyResponse :=
  Http.Resolves {| Http.ok := true; Http.status := 200;
                   Http.payload := Http.Parsed (verify_response l) |}.

Definition http_500 {A} : Http.settlement A :=
  Http.Resolves {| Http.ok := false; Http.status := 500;
                   Http.payload := Http.Unparseable |}.

Definition offline {A} : Http.settlement A :=
  Http.Rejects (Js.TypeError "Failed to fetch").

Definition scan_ok (l : list TradePlan) : Http.settlement ScanResponse :=
  Http.Resolves {| Http.ok := true; Http.status := 200;
                   Http.payload := Http.Parsed {| trades := Some l |} |}.

(** A panel state with card A open. *)
Definition panel_A_open : AIVerificationPanel.state :=
  {| AIVerificationPanel.isLoading := false;
     AIVerificationPanel.response := Some (verify_response [tradeA; tradeB]);
     AIVerificationPanel.currentStep := N;
     AIVerificationPanel.expandedId := Some "A" |}.

(** The page after a trace of events from the first render. *)
Definition page_after (evs : list MissionControl.event) : MissionControl.page :=
  match MissionControl.run MissionControl.initial evs with
  | Some p => p
  | None => MissionControl.initial
  end.

(** A first verification that succeeded with A and B. *)
Definition verified_once : list MissionControl.event :=
  [MissionControl.ClickVerify; MissionControl.VerifySettles (verify_ok [tradeA; tradeB])].

(** A verification that came back with the lower edge first: B, then A. *)
Definition verified_B_then_A : list MissionControl.event :=
  [MissionControl.ClickVerify; MissionControl.VerifySettles (verify_ok [tradeB; tradeA])].

(** A verification in flight for five timer periods. *)
Definition five_ticks : list MissionControl.event :=
  [MissionControl.ClickVerify; MissionControl.TimerTick; MissionControl.TimerTick;
   MissionControl.TimerTick; MissionControl.TimerTick; MissionControl.TimerTick].

(** A scan that found A and B, a verification that ranked A and B, a
    selection in the flat list and toggles in the verified list. *)
Definition busy_session : list MissionControl.event :=
  [MissionControl.ClickScan;
   MissionControl.ScanSettles (scan_ok [plan "A"; plan "B"]);
   MissionControl.ClickVerify;
   MissionControl.ClickOpportunity 0;
   MissionControl.TimerTick;
   MissionControl.VerifySettles (verify_ok [tradeA; tradeB]);
   MissionControl.ClickVerified 1;
   MissionControl.ClickOpportunity 1;
   MissionControl.ClickVerified 1].

(** The dashboard after a trace of events from the first render. *)
Definition dashboard_after (evs : list Dashboard.event) : Dashboard.page :=
  match Dashboard.run Dashboard.initial_page evs with
  | Some p => p
  | None => Dashboard.initial_page
  end.

Definition strategy0 : Dashboard.strategy_t :=
  {| Dashboard.entryPrice := Js.of_Z 100; Dashboard.exitPrice := Js.of_Z 120;
     Dashboard.stopLoss := Js.of_Z 90; Dashboard.confidence_pct := Js.of_Z 80;
     Dashboard.reasoning_trace := Some "trend"; Dashboard.audit_text := None |}.

Definition analysis_ok : Http.settlement Dashboard.strategy_t :=
  Http.Resolves {| Http.ok := true; Http.status := 200;
                   Http.payload := Http.Parsed strategy0 |}.

Definition analyse (t : string) (o : Http.settlement Dashboard.strategy_t)
  : list Dashboard.event :=
  [Dashboard.SetTicker t; Dashboard.ClickAnalyze; Dashboard.AnalyzeSettles o].

(** Six analyses of six tickers, one of them failing, then TSLA picked
    from the recent list. *)
Definition six_analyses : list Dashboard.event :=
  (analyse "AAPL" analysis_ok ++ analyse "MSFT" http_500 ++
   analyse "TSLA" analysis_ok ++ analyse "NVDA" analysis_ok ++
   analyse "AMZN" offline ++ analyse "GOOG" analysis_ok ++
   [Dashboard.ClickRecent 3])%list.

End Sample.

(** ** Invariants and trace predicates *)

Module Trace.
Import MissionControl.

Definition is_verify_settle (e : event) : bool :=
  match e with VerifySettles _ => true | _ => false end.

Definition is_scan_settle (e : event) : bool :=
  match e with ScanSettles _ => true | _ => false end.

Definition is_select (e : event) : bool :=
  match e with ClickOpportunity _ => true | _ => false end.

Definition is_toggle (e : event) : bool :=
  match e with ClickVerified _ => true | _ => false end.

(** Events that may occur while a verification request is in flight. *)
Definition during_verify (evs : list event) : Prop :=
  forallb (fun e => negb (is_verify_settle e)) evs = true.

(** Events that may occur while a scan request is in flight. *)
Definition during_scan (evs : list event) : Prop :=
  forallb (fun e => negb (is_scan_settle e)) evs = true.

Definition is_verify_click (e : event) : bool :=
  match e with ClickVerify => true | _ => false end.

(** Events up to the next click on the verify button. *)
Definition before_next_verify (evs : list event) : Prop :=
  forallb (fun e => negb (is_verify_click e)) evs = true.

(** What holds of the verification panel in every reachable page. *)
Definition panel_inv (p : page) : Prop :=
  verify_pending p = AIVerificationPanel.isLoading (panel p) /\
  intervals (env p) = (if AIVerificationPanel.isLoading (panel p) then 1 else 0) /\
  (AIVerificationPanel.response (panel p) = None ->
   AIVerificationPanel.expandedId (panel p) = None /\
   (0 <= AIVerificationPanel.currentStep (panel p) < N)%Z) /\
  (AIVerificationPanel.response (panel p) <> None ->
   AIVerificationPanel.isLoading (panel p) = false /\
   AIVerificationPanel.currentStep (panel p) = N).

(** Two pages that differ at most in the list selection. *)
Definition same_but_selection (p q : page) : Prop :=
  monitor p = monitor q /\ panel p = panel q /\ env p = env q /\
  scan_pending p = scan_pending q /\ verify_pending p = verify_pending q.

(** Two pages that differ at most in which verified card is open. *)
Definition same_but_expansion (p q : page) : Prop :=
  selectedOpportunity p = selectedOpportunity q /\
  monitor p = monitor q /\ env p = env q /\
  scan_pending p = scan_pending q /\ verify_pending p = verify_pending q /\
  AIVerificationPanel.isLoading (panel p) = AIVerificationPanel.isLoading (panel q) /\
  AIVerificationPanel.response (panel p) = AIVerificationPanel.response (panel q) /\
  AIVerificationPanel.currentStep (panel p) = AIVerificationPanel.currentStep (panel q).

(** What holds of the dashboard's recent-searches list in every state. *)
Definition recent_ok (l : list string) : Prop :=
  NoDup l /\ List.length l <= 5.

End Trace.

(** ** Substring search *)

Module Text.

(** [s.includes(searchString)]: [searchString] occurs in [s] at some
    position; the empty string occurs everywhere. *)
Fixpoint includes (s searchString : string) : bool :=
  String.prefix searchString s ||
  match s with
  | EmptyString => false
  | String _ s' => includes s' searchString
  end.

End Text.

(** ** [OpportunityCard] and what [MarketMonitor] renders *)

Module MarketMonitorView.

Record card : Type := mkCard {
  opp : TradePlan;
  isSelected : bool
}.

(** The predicate of [filteredOpportunities]. [toLowerCase] is the string
    method of the platform, taken as given. *)
Definition matches (toLowerCase : string -> string) (searchQuery : string)
    (o : TradePlan) : bool :=
  Text.includes (toLowerCase (title o)) (toLowerCase searchQuery) ||
  Text.includes (toLowerCase (event_ticker o)) (toLowerCase searchQuery).

Definition filteredOpportunities (toLowerCase : string -> string)
    (s : MarketMonitor.state) : list TradePlan :=
  filter (matches toLowerCase (MarketMonitor.searchQuery s))
         (MarketMonitor.opportunities s).

Record view : Type := mkView {
  scan_disabled : bool;
  cards : list card;               (* !isLoading && filteredOpportunities.map *)
  scanning : bool;                 (* the "Scanning..." spinner *)
  no_trades : bool                 (* "No trades found" *)
}.

Definition render (toLowerCase : string -> string) (selectedId : option string)
    (s : MarketMonitor.state) : view :=
  {| scan_disabled := MarketMonitor.isLoading s;
     cards :=
       if MarketMonitor.isLoading s then []
       else map (fun opportunity =>
                   {| opp := opportunity;
                      isSelected :=
                        Js.strict_eq selectedId (Some (market_id opportunity)) |})
                (filteredOpportunities toLowerCase s);
     scanning := MarketMonitor.isLoading s;
     no_trades :=
       negb (MarketMonitor.isLoading s) &&
       Nat.eqb (List.length (MarketMonitor.opportunities s)) 0 |}.

End MarketMonitorView.

(** ** [PriceChart] of the dashboard *)

Module PriceChart.
Import Eff.Notations.

Record ChartDataPoint : Type := mkPoint {
  time : string;
  price : Js.number
}.

Record timeframe : Type := mkTimeframe {
  tf_label : string;
  tf_value : string;
  tf_interval : string
}.

Definition timeframes : list timeframe :=
  [ {| tf_label := "1D"; tf_value := "1d"; tf_interval := "15m" |};
    {| tf_label := "5D"; tf_value := "5d"; tf_interval := "1h" |};
    {| tf_label := "1M"; tf_value := "1mo"; tf_interval := "1d" |};
    {| tf_label := "6M"; tf_value := "6mo"; tf_interval := "1wk" |} ].

Record state : Type := mkState {
  activeTimeframe : timeframe;
  data : list ChartDataPoint;
  loading : bool;
  hasFetched : bool
}.

Definition initial : state :=
  {| activeTimeframe := {| tf_label := "1M"; tf_value := "1mo"; tf_interval := "1d" |};
     data := []; loading := false; hasFetched := false |}.

Definition setData (d : list ChartDataPoint) (s : state) : state :=
  {| activeTimeframe := activeTimeframe s; data := d;
     loading := loading s; hasFetched := hasFetched s |}.

Definition setLoading (b : bool) (s : state) : state :=
  {| activeTimeframe := activeTimeframe s; data := data s;
     loading := b; hasFetched := hasFetched s |}.

Definition setHasFetched (b : bool) (s : state) : state :=
  {| activeTimeframe := activeTimeframe s; data := data s;
     loading := loading s; hasFetched := b |}.

(** [fetchChartData] up to its [await fetch(...)]; the effect calls it
    only for a ticker that is set. *)
Definition fetchChartData_start : Eff.eff (world state) unit :=
  set_state (setLoading true).

(** [fetchChartData] from the moment the request settles. *)
Definition fetchChartData_settle (o : Http.settlement (list ChartDataPoint))
  : Eff.eff (world state) unit :=
  Eff.try_catch_finally
    (res <- Http.await_fetch o ;;
     if Http.ok res then
       json <- Http.json res ;;
       set_state (setData json) ;;
       set_state (setHasFetched true)
     else Eff.ret tt)
    (fun err => console_error err)
    (set_state (setLoading false)).

(** [!ticker || !hasFetched]: the "Ready to Analyze" placeholder. *)
Definition placeholder (ticker : option string) (s : state) : bool :=
  negb (Js.truthy_string ticker) || negb (hasFetched s).

End PriceChart.

(** ** [MarketScout] of the dashboard *)

Module MarketScout.
Import Eff.Notations.

Record ScoutResult : Type := mkScoutResult {
  ticker : string;
  price : Js.number;
  news_catalyst : string;
  sentiment : string
}.

Record state : Type := mkState {
  budget : string;
  isScanning : bool;
  results : list ScoutResult;
  selectedTicker : option string
}.

Definition initial : state :=
  {| budget := "10000"; isScanning := false; results := []; selectedTicker := None |}.

Definition setIsScanning (b : bool) (s : state) : state :=
  {| budget := budget s; isScanning := b; results := results s;
     selectedTicker := selectedTicker s |}.

Definition setResults (l : list ScoutResult) (s : state) : state :=
  {| budget := budget s; isScanning := isScanning s; results := l;
     selectedTicker := selectedTicker s |}.

(** [handleScout] up to its [await fetch(...)]. *)
Definition handleScout_start : Eff.eff (world state) unit :=
  set_state (setIsScanning true) ;;
  set_state (setResults []).

(** [handleScout] from the moment the request settles. *)
Definition handleScout_settle (o : Http.settlement (list ScoutResult))
  : Eff.eff (world state) unit :=
  Eff.try_catch_finally
    (response <- Http.await_fetch o ;;
     Eff.when (negb (Http.ok response)) (Eff.throw (Js.Error "Scout failed")) ;;
     data <- Http.json response ;;
     set_state (setResults data) ;;
     Eff.when (Nat.eqb (List.length data) 0)
       (toast_info "No candidates found matching criteria."))
    (fun error =>
       console_error error ;;
       toast_error "Failed to fetch market candidates.")
    (set_state (setIsScanning false)).

(** The whole of [handleScout] for a request that settles as [o]. *)
Definition handleScout (o : Http.settlement (list ScoutResult))
  : Eff.eff (world state) unit :=
  handleScout_start ;; handleScout_settle o.

(** The class of the sentiment badge. *)
Definition sentiment_class (sentiment : string) : string :=
  if Text.includes sentiment "Bullish" then "border-success text-success"
  else if Text.includes sentiment "Bearish" then "border-destructive text-destructive"
  else "border-warning text-warning".

(** The hint under the button: [results.length === 0 && !isScanning]. *)
Definition shows_hint (s : state) : bool :=
  Nat.eqb (List.length (results s)) 0 && negb (isScanning s).

End MarketScout.

(** ** The animated chart of the landing page *)

Module TradingVisualization.

(** Simulated price data. *)
Definition priceData : list nat :=
  [42; 44; 43; 47; 46; 49; 48; 52; 51; 55; 53; 58; 56; 54; 57; 60; 59; 63;
   62; 66; 64; 68; 67; 71; 69; 73; 72; 76; 74; 78].

Record state : Type := mkState {
  visiblePoints : nat;
  aiSignal : bool;
  confidence : nat
}.

Definition initial : state :=
  {| visiblePoints := 10; aiSignal := false; confidence := 0 |}.

(** The updater of the 400 ms interval, with the two resets it performs. *)
Definition advance (s : state) : state :=
  if Nat.leb (List.length priceData) (visiblePoints s) then
    (* Reset cycle *)
    {| visiblePoints := 10; aiSignal := false; confidence := 0 |}
  else
    {| visiblePoints := visiblePoints s + 1; aiSignal := aiSignal s;
       confidence := confidence s |}.

(** The effect on [visiblePoints]: trigger the AI signal at certain points. *)
Definition signal_effect (s : state) : state :=
  let s1 :=
    if Nat.eqb (visiblePoints s) 18 then
      {| visiblePoints := visiblePoints s; aiSignal := true; confidence := 87 |}
    else s in
  if Nat.eqb (visiblePoints s1) 25 then
    {| visiblePoints := visiblePoints s1; aiSignal := aiSignal s1; confidence := 94 |}
  else s1.

(** One period of the interval: the updater, then the effect of the render
    that follows. *)
Definition tick (s : state) : state := signal_effect (advance s).

Fixpoint ticks (n : nat) (s : state) : state :=
  match n with
  | 0 => s
  | S n' => ticks n' (tick s)
  end.

Definition currentPoints (s : state) : list nat :=
  firstn (visiblePoints s) priceData.

(** [currentPoints[currentPoints.length - 1]], [undefined] on an empty
    array. *)
Definition currentPrice (s : state) : option nat :=
  nth_error (currentPoints s) (List.length (currentPoints s) - 1).

Definition prevPrice (s : state) : option nat :=
  if Nat.ltb 1 (List.length (currentPoints s)) then
    nth_error (currentPoints s) (List.length (currentPoints s) - 2)
  else currentPrice s.

End TradingVisualization.

(** ** Further invariants *)

Module Inv.

(** The open card, if any, is a card of the response on display. *)
Definition expansion_fresh (s : AIVerificationPanel.state) : Prop :=
  forall m,
    AIVerificationPanel.expandedId s = Some m ->
    exists r,
      AIVerificationPanel.response s = Some r /\
      In m (map (fun v => market_id (trade v)) (top_opportunities r)).

Definition is_analyze_settle (e : Dashboard.event) : bool :=
  match e with Dashboard.AnalyzeSettles _ => true | _ => false end.

(** Events that may occur while an analysis is in flight. *)
Definition during_analysis (evs : list Dashboard.event) : Prop :=
  forallb (fun e => negb (is_analyze_settle e)) evs = true.

(** What holds of the dashboard in every state it reaches. *)
Definition dashboard_inv (p : Dashboard.page) : Prop :=
  Dashboard.pending p = Dashboard.isAnalyzing (Dashboard.ui p) /\
  Dashboard.analyzedTicker (Dashboard.ui p)
    = hd_error (Dashboard.recentSearches (Dashboard.ui p)) /\
  (Dashboard.isAnalyzing (Dashboard.ui p) = true ->
   Dashboard.strategy (Dashboard.ui p) = None).

(** The state of the landing-page animation that shows [v] points. *)
Definition showing (v : nat) : TradingVisualization.state :=
  {| TradingVisualization.visiblePoints := v;
     TradingVisualization.aiSignal := Nat.leb 18 v;
     TradingVisualization.confidence :=
       if Nat.ltb v 18 then 0 else if Nat.ltb v 25 then 87 else 94 |}.

End Inv.

(** ** Further sample data *)

Module Scenario.

(** Lower-casing of the letters A to Z, other characters kept: what
    [toLowerCase] does on ASCII text. *)
Definition lower_char (c : Ascii.ascii) : Ascii.ascii :=
  let n := Ascii.nat_of_ascii c in
  if Nat.leb 65 n && Nat.leb n 90 then Ascii.ascii_of_nat (n + 32) else c.

Fixpoint ascii_lower (s : string) : string :=
  match s with
  | EmptyString => EmptyString
  | String c s' => String (lower_char c) (ascii_lower s')
  end.

Definition scanned (q : string) : MarketMonitor.state :=
  {| MarketMonitor.opportunities := [Sample.plan "A"; Sample.plan "B"];
     MarketMonitor.isLoading := false;
     MarketMonitor.searchQuery := q |}.

Definition scan_without_trades : Http.settlement ScanResponse :=
  Http.Resolves {| Http.ok := true; Http.status := 200;
                   Http.payload := Http.Parsed {| trades := None |} |}.

Definition scout_hit : MarketScout.ScoutResult :=
  {| MarketScout.ticker := "NVDA"; MarketScout.price := Js.of_Z 900;
     MarketScout.news_catalyst := "earnings beat";
     MarketScout.sentiment := "Very Bullish" |}.

Definition scouted : MarketScout.state :=
  {| MarketScout.budget := "500"; MarketScout.isScanning := false;
     MarketScout.results := [scout_hit]; MarketScout.selectedTicker := Some "NVDA" |}.

Definition chart_points : list PriceChart.ChartDataPoint :=
  [ {| PriceChart.time := "09:30"; PriceChart.price := Js.of_Z 100 |};
    {| PriceChart.time := "16:00"; PriceChart.price := Js.of_Z 104 |} ].

Definition chart_shown : PriceChart.state :=
  {| PriceChart.activeTimeframe := PriceChart.activeTimeframe PriceChart.initial;
     PriceChart.data := chart_points; PriceChart.loading := true;
     PriceChart.hasFetched := true |}.

End Scenario.

(** * Properties *)

(** ** Edge colour tiers *)

Lemma ge_finite_true (q c : Q) :
  (c <= q)%Q -> Js.ge (Js.Finite q) (Js.Finite c) = true.
Proof.
  intro H. simpl. now apply Qle_bool_iff.
Qed.

Lemma ge_finite_false (q c : Q) :
  (q < c)%Q -> Js.ge (Js.Finite q) (Js.Finite c) = false.
Proof.
  intro H. simpl. destruct (Qle_bool c q) eqn:E; [|reflexivity].
  apply Qle_bool_iff in E. exfalso. exact (Qlt_not_le _ _ H E).
Qed.

(** C6. [getEdgeColor] is a total function; on every finite edge it
    returns the strong-positive tier when [edge >= 5], the marginal tier
    when [0 <= edge < 5] (so also at 0) and the negative tier when
    [edge < 0]. *)
Theorem getEdgeColor_tiers (q : Q) :
  ((5 <= q)%Q -> getEdgeColor (Js.Finite q) = strong_positive_tier) /\
  ((0 <= q)%Q /\ (q < 5)%Q -> getEdgeColor (Js.Finite q) = marginal_tier) /\
  ((q < 0)%Q -> getEdgeColor (Js.Finite q) = negative_tier).
Proof.
  unfold getEdgeColor, Js.of_Z. repeat split.
  - intro H. now rewrite (ge_finite_true q (inject_Z 5)).
  - intros [H0 H5].
    rewrite (ge_finite_false q (inject_Z 5)) by exact H5.
    now rewrite (ge_finite_true q (inject_Z 0)).
  - intro H.
    rewrite (ge_finite_false q (inject_Z 5)).
    + now rewrite (ge_finite_false q (inject_Z 0)).
    + apply Qlt_trans with (y := 0%Q); [exact H | reflexivity].
Qed.

Lemma getEdgeColor_tiers_witness :
  getEdgeColor (Js.Finite 7) = strong_positive_tier /\
  getEdgeColor (Js.Finite 0) = marginal_tier /\
  getEdgeColor (Js.Finite (-3)) = negative_tier.
Proof.
  split; [|split].
  - apply (proj1 (getEdgeColor_tiers 7)). discriminate.
  - apply (proj1 (proj2 (getEdgeColor_tiers 0))). split; [discriminate | reflexivity].
  - apply (proj2 (proj2 (getEdgeColor_tiers (-3)))). reflexivity.
Defined.

(** The tiers are three different classes, and a non-finite edge still
    gets one of them. *)
Lemma getEdgeColor_total (e : Js.number) :
  In (getEdgeColor e) [strong_positive_tier; marginal_tier; negative_tier].
Proof.
  unfold getEdgeColor.
  destruct (Js.ge e (Js.of_Z 5)); [now left|].
  destruct (Js.ge e (Js.of_Z 0)); [right; now left | right; right; now left].
Qed.

Example getEdgeColor_nan : getEdgeColor Js.NaN = negative_tier.
Proof. reflexivity. Qed.

(** ** The audit section of a verified-trade card *)

Lemma has_chain_nonempty (v : Strategy1VerifiedTrade) (steps : list ThoughtStep) :
  thought_chain v = Some steps -> steps <> [] ->
  VerifiedTradeCard.has_chain v = true.
Proof.
  intros Hc Hne. unfold VerifiedTradeCard.has_chain. rewrite Hc.
  destruct steps; [contradiction | reflexivity].
Qed.

(** C9, as the code has it. Of a trade that carries both a thought chain
    and a fallback string: when the chain has at least one step, the audit
    section shows the structured steps and not the fallback string; when
    the chain is empty it counts as missing, so that a non-empty fallback
    string is what the section shows, and with an empty fallback string no
    audit section is rendered at all. *)
Theorem chain_takes_priority
    (v : Strategy1VerifiedTrade) (steps : list ThoughtStep) (text : string) :
  thought_chain v = Some steps ->
  reasoning_audit v = Some text ->
  (steps <> [] ->
   exists card,
     VerifiedTradeCard.render_audit v = Some card /\
     VerifiedTradeCard.audit card =
       VerifiedTradeCard.ChainSteps (map VerifiedTradeCard.render_step steps) /\
     forall rank,
       option_map VerifiedTradeCard.audit_trail
         (VerifiedTradeCard.card_evidence
            (VerifiedTradeCard.render
               {| VerifiedTradeCard.verified := v;
                  VerifiedTradeCard.rank := rank;
                  VerifiedTradeCard.isExpanded := true |})) = Some (Some card)) /\
  (steps = [] -> text <> "" ->
   exists card,
     VerifiedTradeCard.render_audit v = Some card /\
     VerifiedTradeCard.audit card = VerifiedTradeCard.FallbackText (Some text) /\
     forall rank,
       option_map VerifiedTradeCard.audit_trail
         (VerifiedTradeCard.card_evidence
            (VerifiedTradeCard.render
               {| VerifiedTradeCard.verified := v;
                  VerifiedTradeCard.rank := rank;
                  VerifiedTradeCard.isExpanded := true |})) = Some (Some card)) /\
  (steps = [] -> text = "" ->
   VerifiedTradeCard.render_audit v = None /\
   forall rank,
     option_map VerifiedTradeCard.audit_trail
       (VerifiedTradeCard.card_evidence
          (VerifiedTradeCard.render
             {| VerifiedTradeCard.verified := v;
                VerifiedTradeCard.rank := rank;
                VerifiedTradeCard.isExpanded := true |})) = Some None).
Proof.
  intros Hc Ha. split; [|split].
  - intro Hne.
    pose proof (has_chain_nonempty v steps Hc Hne) as Hh.
    unfold VerifiedTradeCard.render_audit, VerifiedTradeCard.render.
    rewrite Hh, Hc. simpl.
    eexists. split; [reflexivity|]. split; [reflexivity|].
    intro rank. unfold VerifiedTradeCard.render_audit. rewrite Hh, Hc. reflexivity.
  - intros -> Hne. apply String.eqb_neq in Hne.
    unfold VerifiedTradeCard.render, VerifiedTradeCard.render_audit,
      VerifiedTradeCard.has_chain, Js.truthy_string.
    rewrite Hc, Ha, Hne. simpl.
    eexists. split; [reflexivity|]. split; [reflexivity|].
    intro rank. unfold VerifiedTradeCard.render_audit, VerifiedTradeCard.has_chain,
      Js.truthy_string.
    rewrite Hc, Ha, Hne. reflexivity.
  - intros -> ->.
    unfold VerifiedTradeCard.render, VerifiedTradeCard.render_audit,
      VerifiedTradeCard.has_chain, Js.truthy_string.
    rewrite Hc, Ha. simpl. split; [reflexivity|].
    intro rank. unfold VerifiedTradeCard.render_audit, VerifiedTradeCard.has_chain,
      Js.truthy_string.
    rewrite Hc, Ha. reflexivity.
Qed.

Lemma chain_takes_priority_witness :
  (exists card,
     VerifiedTradeCard.render_audit Sample.chained_trade = Some card /\
     VerifiedTradeCard.audit card =
       VerifiedTradeCard.ChainSteps
         (map VerifiedTradeCard.render_step [Sample.thought1])) /\
  (exists card,
     VerifiedTradeCard.render_audit Sample.empty_chain_trade = Some card /\
     VerifiedTradeCard.audit card
       = VerifiedTradeCard.FallbackText (Some "raw audit text")) /\
  VerifiedTradeCard.render_audit Sample.empty_chain_empty_fallback = None.
Proof.
  split; [|split].
  - destruct (chain_takes_priority Sample.chained_trade [Sample.thought1]
                "raw audit text" eq_refl eq_refl) as (H & _).
    destruct (H ltac:(discriminate)) as (card & H1 & H2 & _).
    exists card. split; assumption.
  - destruct (chain_takes_priority Sample.empty_chain_trade []
                "raw audit text" eq_refl eq_refl) as (_ & H & _).
    destruct (H eq_refl ltac:(discriminate)) as (card & H1 & H2 & _).
    exists card. split; assumption.
  - destruct (chain_takes_priority Sample.empty_chain_empty_fallback []
                "" eq_refl eq_refl) as (_ & _ & H).
    apply (H eq_refl eq_refl).
Defined.

(** C9 as stated fails: the chain field is present, the fallback string is
    present, and the card shows the fallback string. *)
Lemma empty_chain_shows_fallback :
  thought_chain Sample.empty_chain_trade = Some [] /\
  reasoning_audit Sample.empty_chain_trade = Some "raw audit text" /\
  option_map VerifiedTradeCard.audit
    (VerifiedTradeCard.render_audit Sample.empty_chain_trade)
  = Some (VerifiedTradeCard.FallbackText (Some "raw audit text")).
Proof. repeat split. Qed.

(** ** Detail expansion *)

Lemma strict_eq_some (a : option string) (m : string) :
  Js.strict_eq a (Some m) = true <-> a = Some m.
Proof.
  destruct a as [x|]; simpl.
  - rewrite String.eqb_eq. split; [now intros -> | now intros [= ->]].
  - split; discriminate.
Qed.

Lemma strict_eq_some_false (a : option string) (m : string) :
  Js.strict_eq a (Some m) = false <-> a <> Some m.
Proof.
  rewrite <- strict_eq_some. destruct (Js.strict_eq a (Some m)); split; congruence.
Qed.

(** C5, as the code has it. Toggling [m] while [m] is expanded leaves
    nothing expanded. Toggling [m] twice in a row gives [m] back the
    status it had: from a state where [m] is not expanded nothing is
    expanded afterwards, from a state where [m] is expanded [m] is
    expanded again. *)
Theorem toggleExpand_twice (s : AIVerificationPanel.state) (m : string) :
  (AIVerificationPanel.expandedId s = Some m ->
   AIVerificationPanel.expandedId (AIVerificationPanel.toggleExpand m s) = None) /\
  (AIVerificationPanel.expandedId s <> Some m ->
   AIVerificationPanel.expandedId
     (AIVerificationPanel.toggleExpand m (AIVerificationPanel.toggleExpand m s))
   = None) /\
  (AIVerificationPanel.expandedId s = Some m ->
   AIVerificationPanel.expandedId
     (AIVerificationPanel.toggleExpand m (AIVerificationPanel.toggleExpand m s))
   = Some m).
Proof.
  unfold AIVerificationPanel.toggleExpand. simpl. repeat split.
  - intro H. apply strict_eq_some in H. now rewrite H.
  - intro H. apply strict_eq_some_false in H. rewrite H. simpl.
    now rewrite String.eqb_refl.
  - intro H. apply strict_eq_some in H. now rewrite H.
Qed.

Lemma toggleExpand_twice_witness :
  AIVerificationPanel.expandedId
    (AIVerificationPanel.toggleExpand "A" Sample.panel_A_open) = None /\
  AIVerificationPanel.expandedId
    (AIVerificationPanel.toggleExpand "B"
       (AIVerificationPanel.toggleExpand "B" Sample.panel_A_open)) = None /\
  AIVerificationPanel.expandedId
    (AIVerificationPanel.toggleExpand "A"
       (AIVerificationPanel.toggleExpand "A" Sample.panel_A_open)) = Some "A".
Proof.
  split; [|split].
  - apply (proj1 (toggleExpand_twice Sample.panel_A_open "A")). reflexivity.
  - apply (proj1 (proj2 (toggleExpand_twice Sample.panel_A_open "B"))). discriminate.
  - apply (proj2 (proj2 (toggleExpand_twice Sample.panel_A_open "A"))). reflexivity.
Defined.

(** C5 as stated fails: with card A open, two toggles of A leave A open,
    not collapsed. *)
Lemma toggle_twice_from_expanded_is_expanded :
  AIVerificationPanel.expandedId Sample.panel_A_open = Some "A" /\
  AIVerificationPanel.expandedId
    (AIVerificationPanel.toggleExpand "A"
       (AIVerificationPanel.toggleExpand "A" Sample.panel_A_open)) = Some "A" /\
  AIVerificationPanel.expanded_set
    (AIVerificationPanel.toggleExpand "A"
       (AIVerificationPanel.toggleExpand "A" Sample.panel_A_open)) = ["A"].
Proof. repeat split. Qed.

(** ** Ranks *)

Lemma nth_error_mapi_from {A B} (f : A -> nat -> B) (l : list A) :
  forall k i, nth_error (Js.mapi_from f k l) i
              = option_map (fun x => f x (k + i)) (nth_error l i).
Proof.
  induction l as [|x l IH]; intros k i.
  - destruct i; reflexivity.
  - destruct i as [|i]; simpl.
    + now rewrite Nat.add_0_r.
    + rewrite IH. now rewrite Nat.add_succ_comm.
Qed.

Lemma map_verified_mapi_from {B} (f : Strategy1VerifiedTrade -> nat -> B)
    (g : B -> Strategy1VerifiedTrade) (l : list Strategy1VerifiedTrade) :
  (forall x i, g (f x i) = x) ->
  forall k, map g (Js.mapi_from f k l) = l.
Proof.
  intros Hg. induction l as [|x l IH]; intro k; simpl.
  - reflexivity.
  - now rewrite Hg, IH.
Qed.

(** ** What a settling [fetchTop3] leaves behind *)

Lemma fetchTop3_settle_delivered
    (o : Http.settlement Strategy1VerifyResponse) (data : Strategy1VerifyResponse) :
  Http.delivered o = Some data ->
  exists notice, forall (s : AIVerificationPanel.state) (b : browser),
    AIVerificationPanel.fetchTop3_settle o (s, b) =
      (Eff.Normal tt,
       ({| AIVerificationPanel.isLoading := false;
           AIVerificationPanel.response := Some data;
           AIVerificationPanel.currentStep := N;
           AIVerificationPanel.expandedId :=
             match top_opportunities data with
             | first :: _ => Some (market_id (trade first))
             | [] => AIVerificationPanel.expandedId s
             end |},
        push_toast notice (clearInterval b))).
Proof.
  destruct o as [reason | [ok st [|d]]]; simpl; try discriminate;
    destruct ok; try discriminate.
  intros [= <-].
  unfold AIVerificationPanel.fetchTop3_settle. run_handler.
  destruct (Nat.ltb 0 _) eqn:E1;
    destruct (top_opportunities d) as [|first rest]; eexists; reflexivity.
Qed.

Lemma fetchTop3_settle_undelivered
    (o : Http.settlement Strategy1VerifyResponse) :
  Http.delivered o = None ->
  exists err, forall (s : AIVerificationPanel.state) (b : browser),
    AIVerificationPanel.fetchTop3_settle o (s, b) =
      (Eff.Normal tt,
       (AIVerificationPanel.setIsLoading false s,
        log_error err (push_toast (ToastError "Verification failed")
                                  (clearInterval b)))).
Proof.
  destruct o as [reason | [ok st [|d]]]; simpl.
  - intros _. exists reason. reflexivity.
  - intros _. destruct ok; eexists; reflexivity.
  - destruct ok; [discriminate|]. intros _. eexists; reflexivity.
Qed.

Lemma failed_undelivered {A} (o : Http.settlement A) :
  Http.failed o = true -> Http.delivered o = None.
Proof.
  destruct o as [reason | [ok st pl]]; simpl; [reflexivity|].
  now intros ->%negb_true_iff.
Qed.

(** The handler never lets an exception out, however the request settles. *)
Lemma fetchTop3_settle_returns
    (w : world AIVerificationPanel.state)
    (o : Http.settlement Strategy1VerifyResponse) :
  Eff.returns_normally (AIVerificationPanel.fetchTop3_settle o) w.
Proof.
  destruct w as [s b]. unfold Eff.returns_normally.
  destruct (Http.delivered o) as [data|] eqn:E.
  - destruct (fetchTop3_settle_delivered o data E) as [notice H].
    exists tt. now rewrite H.
  - destruct (fetchTop3_settle_undelivered o E) as [err H].
    exists tt. now rewrite H.
Qed.

(** ** What a settling [fetchOpportunities] leaves behind *)

Lemma fetchOpportunities_settle_undelivered (o : Http.settlement ScanResponse) :
  Http.delivered o = None ->
  exists err, forall (m : MarketMonitor.state) (b : browser),
    MarketMonitor.fetchOpportunities_settle o (m, b) =
      (Eff.Normal tt,
       (MarketMonitor.setIsLoading false m,
        log_error err (push_toast (ToastError "Strategy Engine Offline") b))).
Proof.
  destruct o as [reason | [ok st [|d]]]; simpl.
  - intros _. exists reason. reflexivity.
  - intros _. destruct ok; eexists; reflexivity.
  - destruct ok; [discriminate|]. intros _. eexists; reflexivity.
Qed.

Lemma fetchOpportunities_settle_delivered
    (o : Http.settlement ScanResponse) (data : ScanResponse) :
  Http.delivered o = Some data ->
  exists notify : browser -> browser,
    (forall b, intervals (notify b) = intervals b) /\
    forall (m : MarketMonitor.state) (b : browser),
      MarketMonitor.fetchOpportunities_settle o (m, b) =
        (Eff.Normal tt,
         (MarketMonitor.setIsLoading false
            (MarketMonitor.setOpportunities
               (match trades data with Some l => l | None => [] end) m),
          notify b)).
Proof.
  destruct o as [reason | [ok st [|d]]]; simpl; try discriminate;
    destruct ok; try discriminate.
  intros [= <-].
  unfold MarketMonitor.fetchOpportunities_settle, MarketMonitor.trades_length.
  destruct d as [[l|]]; run_handler.
  - destruct (Nat.ltb 0 (List.length l)).
    + exists (push_toast
                (ToastSuccess ("Found " ++ Js.show_nat (List.length l) ++ " opportunities"))).
      split; reflexivity.
    + exists (fun b => b). split; reflexivity.
  - eexists (fun b => log_error _ (push_toast _ b)). split; reflexivity.
Qed.

Lemma fetchOpportunities_settle_returns
    (w : world MarketMonitor.state) (o : Http.settlement ScanResponse) :
  Eff.returns_normally (MarketMonitor.fetchOpportunities_settle o) w.
Proof.
  destruct w as [m b]. unfold Eff.returns_normally.
  destruct (Http.delivered o) as [data|] eqn:E.
  - destruct (fetchOpportunities_settle_delivered o data E) as [nf [_ H]].
    exists tt. now rewrite H.
  - destruct (fetchOpportunities_settle_undelivered o E) as [err H].
    exists tt. now rewrite H.
Qed.

Lemma fetchOpportunities_settle_intervals
    (m : MarketMonitor.state) (b : browser) (o : Http.settlement ScanResponse) :
  intervals (snd (Eff.exec (MarketMonitor.fetchOpportunities_settle o) (m, b)))
  = intervals b.
Proof.
  unfold Eff.exec.
  destruct (Http.delivered o) as [data|] eqn:E.
  - destruct (fetchOpportunities_settle_delivered o data E) as [nf [Hi H]].
    rewrite H. apply Hi.
  - destruct (fetchOpportunities_settle_undelivered o E) as [err H].
    now rewrite H.
Qed.

(** ** The panel invariant *)

Section PanelInvariant.
Import MissionControl Trace.

Lemma N_is_5 : N = 5%Z.
Proof. reflexivity. Qed.

Lemma cards_without_response (s : AIVerificationPanel.state) :
  AIVerificationPanel.response s = None ->
  AIVerificationPanel.cards (AIVerificationPanel.render s) = [].
Proof. intro H. simpl. now rewrite H. Qed.

Lemma panel_inv_initial : panel_inv initial.
Proof.
  unfold panel_inv. simpl. repeat split; try reflexivity; try congruence.
Qed.

Lemma panel_inv_step (p p' : page) (e : event) :
  step p e = Some p' -> panel_inv p -> panel_inv p'.
Proof.
  intros Hs (Hpend & Hint & Hnone & Hsome).
  destruct e; unfold step in Hs.
  - (* ClickScan *)
    destruct (MarketMonitor.isLoading (monitor p)); [discriminate|].
    injection Hs as <-. unfold panel_inv. simpl. auto.
  - (* ScanSettles *)
    destruct (scan_pending p); [|discriminate].
    injection Hs as <-. unfold panel_inv, with_monitor, monitor_world. simpl.
    rewrite fetchOpportunities_settle_intervals. auto.
  - (* TypeFilter *)
    injection Hs as <-. unfold panel_inv. simpl. auto.
  - (* ClickOpportunity *)
    destruct (MarketMonitor.isLoading (monitor p)); [discriminate|].
    destruct (nth_error _ i); [|discriminate].
    injection Hs as <-. unfold panel_inv. simpl. auto.
  - (* ClickVerify *)
    destruct (AIVerificationPanel.isLoading (panel p)) eqn:El; [discriminate|].
    injection Hs as <-. unfold panel_inv. simpl.
    rewrite Hint. rewrite N_is_5. repeat split; try reflexivity; try lia; congruence.
  - (* TimerTick *)
    destruct (Nat.ltb 0 (intervals (env p))) eqn:Ei; [|discriminate].
    injection Hs as <-.
    destruct (AIVerificationPanel.isLoading (panel p)) eqn:El;
      [| rewrite Hint in Ei; discriminate].
    assert (Hr : AIVerificationPanel.response (panel p) = None).
    { destruct (AIVerificationPanel.response (panel p)) eqn:Er; [|reflexivity].
      destruct Hsome as [Hf _]; [discriminate | discriminate]. }
    destruct (Hnone Hr) as [He Hc].
    unfold panel_inv. simpl. rewrite El, Hr. rewrite N_is_5 in *.
    repeat split; auto; try lia; try congruence.
  - (* VerifySettles *)
    destruct (verify_pending p) eqn:Ep; [|discriminate].
    injection Hs as <-.
    symmetry in Hpend. rewrite Hpend in Hint.
    assert (Hr : AIVerificationPanel.response (panel p) = None).
    { destruct (AIVerificationPanel.response (panel p)) eqn:Er; [|reflexivity].
      destruct Hsome as [Hf _]; [discriminate | congruence]. }
    destruct (Hnone Hr) as [He Hc].
    unfold panel_inv, with_panel, panel_world, Eff.exec.
    destruct (Http.delivered o) as [data|] eqn:E.
    + destruct (fetchTop3_settle_delivered o data E) as [nt H].
      rewrite H. simpl. rewrite Hint. repeat split; try reflexivity; congruence.
    + destruct (fetchTop3_settle_undelivered o E) as [err H].
      rewrite H. simpl. rewrite Hint, Hr. rewrite N_is_5 in *.
      repeat split; auto; try lia; congruence.
  - (* ClickVerified *)
    destruct (nth_error _ i) as [card|] eqn:En; [|discriminate].
    injection Hs as <-.
    destruct (AIVerificationPanel.response (panel p)) as [r|] eqn:Er.
    + destruct Hsome as [Hf Hc]; [discriminate|].
      unfold panel_inv. simpl. rewrite Er.
      repeat split; auto; try congruence.
    + rewrite (cards_without_response _ Er) in En. destruct i; discriminate.
Qed.

Lemma run_app (p : page) (evs1 evs2 : list event) :
  run p (evs1 ++ evs2) =
  match run p evs1 with Some q => run q evs2 | None => None end.
Proof.
  revert p. induction evs1 as [|e evs1 IH]; intro p; simpl; [reflexivity|].
  destruct (step p e); [apply IH | reflexivity].
Qed.

Lemma panel_inv_run (evs : list event) :
  forall p p', run p evs = Some p' -> panel_inv p -> panel_inv p'.
Proof.
  induction evs as [|e evs IH]; intros p p' Hr Hi; simpl in Hr.
  - now injection Hr as <-.
  - destruct (step p e) as [q|] eqn:Hs; [|discriminate].
    eapply IH; [exact Hr|]. eapply panel_inv_step; eauto.
Qed.

Lemma reachable_panel_inv (p : page) : reachable p -> panel_inv p.
Proof.
  intros [evs Hr]. eapply panel_inv_run; [exact Hr | exact panel_inv_initial].
Qed.

Lemma reachable_run (p p' : page) (evs : list event) :
  reachable p -> run p evs = Some p' -> reachable p'.
Proof.
  intros [evs0 H0] Hr. exists (evs0 ++ evs)%list. now rewrite run_app, H0.
Qed.

Lemma reachable_step (p p' : page) (e : event) :
  reachable p -> step p e = Some p' -> reachable p'.
Proof.
  intros Hp Hs. apply (reachable_run p p' [e] Hp). simpl. now rewrite Hs.
Qed.

End PanelInvariant.

(** ** A verification request from click to settlement *)

Section VerifyRequest.
Import MissionControl Trace.

Lemma step_keeps_verify_loading (p p' : page) (e : event) :
  step p e = Some p' ->
  is_verify_settle e = false ->
  AIVerificationPanel.isLoading (panel p) = true ->
  AIVerificationPanel.isLoading (panel p') = true.
Proof.
  intros Hs He Hl. destruct e; unfold step in Hs; try discriminate He.
  - destruct (MarketMonitor.isLoading (monitor p)); [discriminate|].
    now injection Hs as <-.
  - destruct (scan_pending p); [|discriminate]. now injection Hs as <-.
  - now injection Hs as <-.
  - destruct (MarketMonitor.isLoading (monitor p)); [discriminate|].
    destruct (nth_error _ i); [|discriminate]. now injection Hs as <-.
  - rewrite Hl in Hs. discriminate.
  - destruct (Nat.ltb 0 _); [|discriminate]. now injection Hs as <-.
  - destruct (nth_error _ i); [|discriminate]. now injection Hs as <-.
Qed.

Lemma run_keeps_verify_loading (evs : list event) :
  forall p p',
    run p evs = Some p' ->
    during_verify evs ->
    AIVerificationPanel.isLoading (panel p) = true ->
    AIVerificationPanel.isLoading (panel p') = true.
Proof.
  unfold during_verify.
  induction evs as [|e evs IH]; intros p p' Hr Hd Hl; simpl in Hr, Hd.
  - now injection Hr as <-.
  - destruct (step p e) as [q|] eqn:Hs; [|discriminate].
    apply andb_true_iff in Hd as [He Hd]. apply negb_true_iff in He.
    eapply IH; eauto using step_keeps_verify_loading.
Qed.

Lemma click_verify_loading (p p1 : page) :
  step p ClickVerify = Some p1 ->
  AIVerificationPanel.isLoading (panel p1) = true /\
  AIVerificationPanel.response (panel p1) = None /\
  AIVerificationPanel.expandedId (panel p1) = None /\
  AIVerificationPanel.currentStep (panel p1) = 0%Z.
Proof.
  unfold step. destruct (AIVerificationPanel.isLoading (panel p)); [discriminate|].
  intros [= <-]. repeat split.
Qed.

(** What a reachable page with a verification in flight looks like. *)
Lemma loading_panel (p : page) :
  reachable p ->
  AIVerificationPanel.isLoading (panel p) = true ->
  verify_pending p = true /\
  intervals (env p) = 1 /\
  AIVerificationPanel.response (panel p) = None /\
  AIVerificationPanel.expandedId (panel p) = None /\
  (0 <= AIVerificationPanel.currentStep (panel p) < N)%Z.
Proof.
  intros Hp Hl. destruct (reachable_panel_inv p Hp) as (Hpend & Hint & Hnone & Hsome).
  rewrite Hl in Hpend, Hint.
  assert (Hr : AIVerificationPanel.response (panel p) = None).
  { destruct (AIVerificationPanel.response (panel p)) eqn:Er; [|reflexivity].
    destruct Hsome as [Hf _]; [discriminate | congruence]. }
  destruct (Hnone Hr). auto.
Qed.

(** C1, as the code has it. A failed [fetchTop3] (the fetch rejects or the
    response is not ok) leaves the panel without a result: the result shown
    before was cleared when the request started and is not put back, no
    card is expanded, and the panel is back to its idle appearance. The
    step timer is cancelled and the counter stays where it was, below [N];
    exactly one failure toast is added, and the handler completes normally. *)
Theorem failed_verify_leaves_no_result
    (p p1 p2 : page) (evs : list event)
    (o : Http.settlement Strategy1VerifyResponse) :
  reachable p ->
  step p ClickVerify = Some p1 ->
  run p1 evs = Some p2 ->
  during_verify evs ->
  Http.failed o = true ->
  AIVerificationPanel.response (panel p1) = None /\
  Eff.returns_normally (AIVerificationPanel.fetchTop3_settle o) (panel_world p2) /\
  exists p3,
    step p2 (VerifySettles o) = Some p3 /\
    AIVerificationPanel.response (panel p3) = None /\
    AIVerificationPanel.expandedId (panel p3) = None /\
    AIVerificationPanel.isLoading (panel p3) = false /\
    intervals (env p3) = 0 /\
    step p3 TimerTick = None /\
    AIVerificationPanel.currentStep (panel p3)
      = AIVerificationPanel.currentStep (panel p2) /\
    (AIVerificationPanel.currentStep (panel p3) < N)%Z /\
    toasts (env p3) = (toasts (env p2) ++ [ToastError "Verification failed"])%list /\
    AIVerificationPanel.idle (AIVerificationPanel.render (panel p3)) = true /\
    AIVerificationPanel.cards (AIVerificationPanel.render (panel p3)) = [].
Proof.
  intros Hp Hs Hr Hd Hf.
  destruct (click_verify_loading p p1 Hs) as (Hl1 & Hr1 & _).
  assert (Hp2 : reachable p2).
  { eapply reachable_run; [|exact Hr]. eapply reachable_step; eauto. }
  pose proof (run_keeps_verify_loading evs p1 p2 Hr Hd Hl1) as Hl2.
  destruct (loading_panel p2 Hp2 Hl2) as (Hpend & Hint & Hr2 & He2 & Hc2).
  split; [exact Hr1|]. split; [apply fetchTop3_settle_returns|].
  destruct (fetchTop3_settle_undelivered o
              (failed_undelivered o Hf)) as [err H].
  eexists. split.
  { unfold step. rewrite Hpend. reflexivity. }
  unfold with_panel, panel_world, Eff.exec, step. rewrite H. simpl.
  rewrite Hint, Hr2. simpl. repeat split; auto. apply Hc2.
Qed.

Lemma failed_verify_leaves_no_result_witness :
  AIVerificationPanel.response
    (panel (Sample.page_after (Sample.verified_once ++ [ClickVerify]))) = None /\
  Eff.returns_normally
    (AIVerificationPanel.fetchTop3_settle Sample.http_500)
    (panel_world
       (Sample.page_after (Sample.verified_once ++ [ClickVerify; TimerTick; TimerTick]))) /\
  exists p3,
    step (Sample.page_after (Sample.verified_once ++ [ClickVerify; TimerTick; TimerTick]))
         (VerifySettles Sample.http_500) = Some p3 /\
    AIVerificationPanel.response (panel p3) = None /\
    AIVerificationPanel.expandedId (panel p3) = None /\
    AIVerificationPanel.isLoading (panel p3) = false /\
    intervals (env p3) = 0 /\
    step p3 TimerTick = None /\
    AIVerificationPanel.currentStep (panel p3)
      = AIVerificationPanel.currentStep
          (panel (Sample.page_after
                    (Sample.verified_once ++ [ClickVerify; TimerTick; TimerTick]))) /\
    (AIVerificationPanel.currentStep (panel p3) < N)%Z /\
    toasts (env p3) =
      (toasts (env (Sample.page_after
                      (Sample.verified_once ++ [ClickVerify; TimerTick; TimerTick])))
       ++ [ToastError "Verification failed"])%list /\
    AIVerificationPanel.idle (AIVerificationPanel.render (panel p3)) = true /\
    AIVerificationPanel.cards (AIVerificationPanel.render (panel p3)) = [].
Proof.
  apply (failed_verify_leaves_no_result
           (Sample.page_after Sample.verified_once)
           (Sample.page_after (Sample.verified_once ++ [ClickVerify]))
           (Sample.page_after (Sample.verified_once ++ [ClickVerify; TimerTick; TimerTick]))
           [TimerTick; TimerTick]
           Sample.http_500).
  - exists Sample.verified_once. vm_compute; reflexivity.
  - vm_compute; reflexivity.
  - vm_compute; reflexivity.
  - vm_compute; reflexivity.
  - vm_compute; reflexivity.
Defined.

(** C1 as stated fails: a result is on display, a second request fails,
    and the result is gone. *)
Lemma failed_verify_drops_previous_result :
  AIVerificationPanel.response (panel (Sample.page_after Sample.verified_once))
    = Some (Sample.verify_response [Sample.tradeA; Sample.tradeB]) /\
  run (Sample.page_after Sample.verified_once)
      [ClickVerify; VerifySettles Sample.offline]
    = Some (Sample.page_after
              (Sample.verified_once ++ [ClickVerify; VerifySettles Sample.offline])) /\
  Http.failed (@Sample.offline Strategy1VerifyResponse) = true /\
  AIVerificationPanel.response
    (panel (Sample.page_after
              (Sample.verified_once ++ [ClickVerify; VerifySettles Sample.offline])))
    = None.
Proof. repeat split. Qed.

End VerifyRequest.

(** ** The progress counter *)

Section Progress.
Import MissionControl Trace.

(** C2. In every reachable page: a click on the verify button starts the
    counter at 0; while the panel is loading the counter lies in
    [0, N-1] with [N = 5]; a timer tick moves it to
    [min (step + 1) (N - 1)], which is never smaller than before and
    still below [N]; when the request settles the counter is [N] exactly
    when a payload was delivered; and no event other than such a
    settlement brings the counter to [N]. *)
Theorem progress_counter_bounded (p : page) :
  reachable p ->
  N = 5%Z /\
  (forall p', step p ClickVerify = Some p' ->
     AIVerificationPanel.isLoading (panel p') = true /\
     AIVerificationPanel.currentStep (panel p') = 0%Z) /\
  (AIVerificationPanel.isLoading (panel p) = true ->
     (0 <= AIVerificationPanel.currentStep (panel p) < N)%Z) /\
  (forall p', step p TimerTick = Some p' ->
     AIVerificationPanel.isLoading (panel p') = true /\
     AIVerificationPanel.currentStep (panel p')
       = Z.min (AIVerificationPanel.currentStep (panel p) + 1) (N - 1) /\
     (AIVerificationPanel.currentStep (panel p)
        <= AIVerificationPanel.currentStep (panel p') < N)%Z) /\
  (forall o p', step p (VerifySettles o) = Some p' ->
     (AIVerificationPanel.currentStep (panel p') = N <-> Http.delivered o <> None) /\
     (Http.delivered o = None ->
        AIVerificationPanel.currentStep (panel p')
          = AIVerificationPanel.currentStep (panel p))) /\
  (forall e p', step p e = Some p' ->
     AIVerificationPanel.currentStep (panel p') = N ->
     AIVerificationPanel.currentStep (panel p) = N \/
     exists o data, e = VerifySettles o /\ Http.delivered o = Some data).
Proof.
  intro Hp. pose proof (reachable_panel_inv p Hp) as (Hpend & Hint & Hnone & Hsome).
  split; [reflexivity|]. split; [|split; [|split; [|split]]].
  - intros p' Hs. destruct (click_verify_loading p p' Hs) as (Hl & _ & _ & Hc). auto.
  - intro Hl. apply (loading_panel p Hp Hl).
  - intros p' Hs. unfold step in Hs.
    destruct (Nat.ltb 0 (intervals (env p))) eqn:Ei; [|discriminate].
    injection Hs as <-.
    destruct (AIVerificationPanel.isLoading (panel p)) eqn:El;
      [| rewrite Hint in Ei; discriminate].
    destruct (loading_panel p Hp El) as (_ & _ & _ & _ & Hc).
    simpl. rewrite El. rewrite N_is_5 in *. repeat split; lia.
  - intros o p' Hs. unfold step in Hs.
    destruct (verify_pending p) eqn:Ep; [|discriminate]. injection Hs as <-.
    symmetry in Hpend.
    destruct (loading_panel p Hp Hpend) as (_ & _ & _ & _ & Hc).
    unfold with_panel, panel_world, Eff.exec.
    destruct (Http.delivered o) as [data|] eqn:E.
    + destruct (fetchTop3_settle_delivered o data E) as [nt H].
      rewrite H. simpl. repeat split; congruence.
    + destruct (fetchTop3_settle_undelivered o E) as [err H].
      rewrite H. simpl. repeat split; try congruence. intro HN. lia.
  - intros e p' Hs HN. destruct e; unfold step in Hs.
    + destruct (MarketMonitor.isLoading (monitor p)); [discriminate|].
      injection Hs as <-. now left.
    + destruct (scan_pending p); [|discriminate]. injection Hs as <-. now left.
    + injection Hs as <-. now left.
    + destruct (MarketMonitor.isLoading (monitor p)); [discriminate|].
      destruct (nth_error _ i); [|discriminate]. injection Hs as <-. now left.
    + destruct (AIVerificationPanel.isLoading (panel p)); [discriminate|].
      injection Hs as <-. simpl in HN. discriminate HN.
    + destruct (Nat.ltb 0 (intervals (env p))) eqn:Ei; [|discriminate].
      injection Hs as <-. simpl in HN. rewrite N_is_5 in HN. lia.
    + destruct (verify_pending p); [|discriminate]. injection Hs as <-.
      destruct (Http.delivered o) as [data|] eqn:E.
      * right. eauto.
      * left. unfold with_panel, panel_world, Eff.exec in HN.
        destruct (fetchTop3_settle_undelivered o E) as [err H].
        rewrite H in HN. exact HN.
    + destruct (nth_error _ i); [|discriminate]. injection Hs as <-. now left.
Qed.

Lemma progress_counter_bounded_witness :
  AIVerificationPanel.currentStep
    (panel (Sample.page_after (Sample.verified_once ++ [ClickVerify]))) = 0%Z /\
  (0 <= AIVerificationPanel.currentStep
          (panel (Sample.page_after Sample.five_ticks)) < N)%Z /\
  (AIVerificationPanel.currentStep (panel (Sample.page_after Sample.five_ticks))
   <= AIVerificationPanel.currentStep
        (panel (Sample.page_after (Sample.five_ticks ++ [TimerTick]))) < N)%Z /\
  AIVerificationPanel.currentStep
    (panel (Sample.page_after
              [ClickVerify; TimerTick; VerifySettles (Sample.verify_ok [])])) = N.
Proof.
  split; [|split; [|split]].
  - destruct (progress_counter_bounded (Sample.page_after Sample.verified_once))
      as (_ & H & _).
    + exists Sample.verified_once. vm_compute; reflexivity.
    + apply (H (Sample.page_after (Sample.verified_once ++ [ClickVerify]))).
      vm_compute; reflexivity.
  - destruct (progress_counter_bounded (Sample.page_after Sample.five_ticks))
      as (_ & _ & H & _).
    + exists Sample.five_ticks. vm_compute; reflexivity.
    + apply H. vm_compute; reflexivity.
  - destruct (progress_counter_bounded (Sample.page_after Sample.five_ticks))
      as (_ & _ & _ & H & _).
    + exists Sample.five_ticks. vm_compute; reflexivity.
    + apply (H (Sample.page_after (Sample.five_ticks ++ [TimerTick]))).
      vm_compute; reflexivity.
  - destruct (progress_counter_bounded (Sample.page_after [ClickVerify; TimerTick]))
      as (_ & _ & _ & _ & H & _).
    + exists [ClickVerify; TimerTick]. vm_compute; reflexivity.
    + apply (H (Sample.verify_ok [])
               (Sample.page_after
                  [ClickVerify; TimerTick; VerifySettles (Sample.verify_ok [])])).
      * vm_compute; reflexivity.
      * discriminate.
Defined.

Example six_ticks_stop_at_four :
  AIVerificationPanel.currentStep
    (panel (Sample.page_after (Sample.five_ticks ++ [TimerTick]))) = 4%Z.
Proof. reflexivity. Qed.

End Progress.

(** ** Ranked cards and auto-expansion *)

Section RankedCards.
Import MissionControl Trace.

Lemma In_mapi_from {A B} (f : A -> nat -> B) (l : list A) :
  forall k c, In c (Js.mapi_from f k l) -> exists x i, In x l /\ c = f x i.
Proof.
  induction l as [|x l IH]; intros k c Hc; simpl in Hc.
  - contradiction.
  - destruct Hc as [<- | Hc].
    + exists x, k. split; [now left | reflexivity].
    + destruct (IH _ _ Hc) as (y & i & Hy & ->). exists y, i. split; [now right | reflexivity].
Qed.

(** The cards of a panel state are its response, element by element. *)
Lemma cards_follow_response
    (s : AIVerificationPanel.state) (r : Strategy1VerifyResponse) :
  AIVerificationPanel.response s = Some r ->
  map VerifiedTradeCard.verified
      (AIVerificationPanel.cards (AIVerificationPanel.render s))
    = top_opportunities r /\
  forall i v,
    nth_error (top_opportunities r) i = Some v ->
    exists card,
      nth_error (AIVerificationPanel.cards (AIVerificationPanel.render s)) i
        = Some card /\
      VerifiedTradeCard.verified card = v /\
      VerifiedTradeCard.rank card = i + 1 /\
      VerifiedTradeCard.rank_badge
        (VerifiedTradeCard.card_header (VerifiedTradeCard.render card)) = i + 1.
Proof.
  intro Hr. simpl. rewrite Hr. unfold Js.mapi. split.
  - now apply map_verified_mapi_from.
  - intros i v Hv. rewrite nth_error_mapi_from, Hv. simpl.
    eexists. split; [reflexivity|]. simpl. auto.
Qed.

Lemma map_rank_mapi_from (open : Strategy1VerifiedTrade -> bool)
    (l : list Strategy1VerifiedTrade) :
  forall k,
    map VerifiedTradeCard.rank
        (Js.mapi_from
           (fun verified i =>
              {| VerifiedTradeCard.verified := verified;
                 VerifiedTradeCard.rank := i + 1;
                 VerifiedTradeCard.isExpanded := open verified |})
           k l)
    = seq (k + 1) (List.length l).
Proof.
  induction l as [|x l IH]; intro k; simpl; [reflexivity|].
  rewrite IH. reflexivity.
Qed.

(** Once a verification has settled, the response on display changes only
    with the next click on the verify button. *)
Lemma step_keeps_response (p p' : page) (e : event) :
  step p e = Some p' ->
  is_verify_click e = false ->
  verify_pending p = false ->
  verify_pending p' = false /\
  AIVerificationPanel.response (panel p') = AIVerificationPanel.response (panel p).
Proof.
  intros Hs He Hp. destruct e; unfold step in Hs; try discriminate He.
  - destruct (MarketMonitor.isLoading (monitor p)); [discriminate|].
    injection Hs as <-. simpl. auto.
  - destruct (scan_pending p); [|discriminate]. injection Hs as <-. simpl. auto.
  - injection Hs as <-. simpl. auto.
  - destruct (MarketMonitor.isLoading (monitor p)); [discriminate|].
    destruct (nth_error _ i); [|discriminate]. injection Hs as <-. simpl. auto.
  - destruct (Nat.ltb 0 _); [|discriminate]. injection Hs as <-. simpl. auto.
  - rewrite Hp in Hs. discriminate.
  - destruct (nth_error _ i); [|discriminate]. injection Hs as <-. simpl. auto.
Qed.

Lemma run_keeps_response (evs : list event) :
  forall p p',
    run p evs = Some p' ->
    before_next_verify evs ->
    verify_pending p = false ->
    AIVerificationPanel.response (panel p') = AIVerificationPanel.response (panel p).
Proof.
  unfold before_next_verify.
  induction evs as [|e evs IH]; intros p p' Hr Hd Hp; simpl in Hr, Hd.
  - now injection Hr as <-.
  - destruct (step p e) as [q|] eqn:Hs; [|discriminate].
    apply andb_true_iff in Hd as [He Hd]. apply negb_true_iff in He.
    destruct (step_keeps_response p q e Hs He Hp) as [Hq Hresp].
    rewrite (IH q p' Hr Hd Hq). exact Hresp.
Qed.

(** C4. When a verification request settles with a payload, and from then
    on until the verify button is clicked again, whatever else happens on
    the page: the cards rendered are the elements of the delivered
    [top_opportunities] in the order of that array, nothing moved, dropped
    or added, and the card of element [i] carries rank [i + 1], whatever
    the edges are. *)
Theorem rank_is_arrival_position
    (p p1 p2 : page) (o : Http.settlement Strategy1VerifyResponse)
    (data : Strategy1VerifyResponse) (evs : list event) :
  Http.delivered o = Some data ->
  step p (VerifySettles o) = Some p1 ->
  run p1 evs = Some p2 ->
  before_next_verify evs ->
  map VerifiedTradeCard.verified
      (AIVerificationPanel.cards (AIVerificationPanel.render (panel p2)))
    = top_opportunities data /\
  map VerifiedTradeCard.rank
      (AIVerificationPanel.cards (AIVerificationPanel.render (panel p2)))
    = seq 1 (List.length (top_opportunities data)) /\
  forall i v,
    nth_error (top_opportunities data) i = Some v ->
    exists card,
      nth_error (AIVerificationPanel.cards (AIVerificationPanel.render (panel p2))) i
        = Some card /\
      VerifiedTradeCard.verified card = v /\
      VerifiedTradeCard.rank card = i + 1 /\
      VerifiedTradeCard.rank_badge
        (VerifiedTradeCard.card_header (VerifiedTradeCard.render card)) = i + 1.
Proof.
  intros Hd Hs Hr Hev.
  assert (H1 : verify_pending p1 = false /\
               AIVerificationPanel.response (panel p1) = Some data).
  { unfold step in Hs. destruct (verify_pending p); [|discriminate].
    injection Hs as <-. split; [reflexivity|].
    unfold with_panel, panel_world, Eff.exec.
    destruct (fetchTop3_settle_delivered o data Hd) as [nt H].
    now rewrite H. }
  destruct H1 as [Hp1 Hresp1].
  assert (Hresp2 : AIVerificationPanel.response (panel p2) = Some data).
  { rewrite (run_keeps_response evs p1 p2 Hr Hev Hp1). exact Hresp1. }
  destruct (cards_follow_response (panel p2) data Hresp2) as [Hmap Hnth].
  split; [exact Hmap|]. split; [|exact Hnth].
  simpl. rewrite Hresp2. unfold Js.mapi. apply map_rank_mapi_from.
Qed.

Lemma rank_is_arrival_position_witness :
  map VerifiedTradeCard.verified
      (AIVerificationPanel.cards
         (AIVerificationPanel.render
            (panel (Sample.page_after
                      (Sample.verified_B_then_A ++ [ClickVerified 1; ClickScan])))))
    = top_opportunities (Sample.verify_response [Sample.tradeB; Sample.tradeA]) /\
  map VerifiedTradeCard.rank
      (AIVerificationPanel.cards
         (AIVerificationPanel.render
            (panel (Sample.page_after
                      (Sample.verified_B_then_A ++ [ClickVerified 1; ClickScan])))))
    = seq 1 (List.length
               (top_opportunities (Sample.verify_response [Sample.tradeB; Sample.tradeA]))) /\
  forall i v,
    nth_error (top_opportunities (Sample.verify_response [Sample.tradeB; Sample.tradeA])) i
      = Some v ->
    exists card,
      nth_error
        (AIVerificationPanel.cards
           (AIVerificationPanel.render
              (panel (Sample.page_after
                        (Sample.verified_B_then_A ++ [ClickVerified 1; ClickScan]))))) i
        = Some card /\
      VerifiedTradeCard.verified card = v /\
      VerifiedTradeCard.rank card = i + 1 /\
      VerifiedTradeCard.rank_badge
        (VerifiedTradeCard.card_header (VerifiedTradeCard.render card)) = i + 1.
Proof.
  apply (rank_is_arrival_position
           (Sample.page_after [ClickVerify])
           (Sample.page_after Sample.verified_B_then_A)
           (Sample.page_after (Sample.verified_B_then_A ++ [ClickVerified 1; ClickScan]))
           (Sample.verify_ok [Sample.tradeB; Sample.tradeA])
           (Sample.verify_response [Sample.tradeB; Sample.tradeA])
           [ClickVerified 1; ClickScan]).
  - reflexivity.
  - vm_compute; reflexivity.
  - vm_compute; reflexivity.
  - reflexivity.
Defined.

(** The lower edge first: B (edge 3) keeps rank 1 and A (edge 8) rank 2. *)
Example lower_edge_first_keeps_order :
  map (fun c => (market_id (trade (VerifiedTradeCard.verified c)),
                 VerifiedTradeCard.rank c))
      (AIVerificationPanel.cards
         (AIVerificationPanel.render
            (panel (Sample.page_after
                      [ClickVerify;
                       VerifySettles (Sample.verify_ok [Sample.tradeB; Sample.tradeA])]))))
  = [("B", 1); ("A", 2)].
Proof. reflexivity. Qed.

Lemma idle_not_empty_result (s : AIVerificationPanel.state) :
  AIVerificationPanel.idle (AIVerificationPanel.render s) = true ->
  AIVerificationPanel.empty_result (AIVerificationPanel.render s) = false.
Proof.
  simpl. destruct (AIVerificationPanel.response s); [|reflexivity].
  rewrite andb_false_r. discriminate.
Qed.

(** C3. When a verification settles with a payload: if [top_opportunities]
    has a first element, [expandedId] is that element's market id, the card
    of that id is open and no card of another id is; if it is empty,
    nothing is expanded and the panel shows the empty-result notice and not
    the idle one, while the first render shows the idle notice and not the
    empty-result one. *)
Theorem successful_verify_expansion
    (p p' : page) (o : Http.settlement Strategy1VerifyResponse)
    (data : Strategy1VerifyResponse) :
  reachable p ->
  Http.delivered o = Some data ->
  step p (VerifySettles o) = Some p' ->
  AIVerificationPanel.response (panel p') = Some data /\
  (forall first rest,
     top_opportunities data = first :: rest ->
     AIVerificationPanel.expandedId (panel p') = Some (market_id (trade first)) /\
     In (market_id (trade first)) (AIVerificationPanel.expanded_set (panel p')) /\
     forall m, In m (AIVerificationPanel.expanded_set (panel p')) ->
               m = market_id (trade first)) /\
  (top_opportunities data = [] ->
     AIVerificationPanel.expandedId (panel p') = None /\
     AIVerificationPanel.expanded_set (panel p') = [] /\
     AIVerificationPanel.empty_result (AIVerificationPanel.render (panel p')) = true /\
     AIVerificationPanel.idle (AIVerificationPanel.render (panel p')) = false) /\
  AIVerificationPanel.idle (AIVerificationPanel.render (panel initial)) = true /\
  AIVerificationPanel.empty_result (AIVerificationPanel.render (panel initial)) = false.
Proof.
  intros Hp Hd Hs. unfold step in Hs.
  destruct (verify_pending p) eqn:Ep; [|discriminate]. injection Hs as <-.
  destruct (reachable_panel_inv p Hp) as (Hpend & _).
  rewrite Ep in Hpend. symmetry in Hpend.
  destruct (loading_panel p Hp Hpend) as (_ & _ & _ & He & _).
  unfold with_panel, panel_world, Eff.exec.
  destruct (fetchTop3_settle_delivered o data Hd) as [nt H].
  rewrite H. clear H. unfold AIVerificationPanel.expanded_set. simpl.
  split; [reflexivity|]. split; [|split; [|split; reflexivity]].
  - intros first rest Ht. rewrite Ht. unfold Js.mapi. simpl.
    rewrite String.eqb_refl. simpl.
    split; [reflexivity|]. split; [now left|].
    intros m [<- | Hm]; [reflexivity|].
    apply in_map_iff in Hm as (card & <- & Hc).
    apply filter_In in Hc as [Hc Hx].
    apply In_mapi_from in Hc as (x & i & _ & ->). simpl in Hx.
    apply String.eqb_eq in Hx. now symmetry.
  - intro Ht. rewrite Ht, He. simpl. auto.
Qed.

Lemma successful_verify_expansion_witness :
  AIVerificationPanel.expandedId (panel (Sample.page_after Sample.verified_once))
    = Some "A" /\
  AIVerificationPanel.expanded_set (panel (Sample.page_after Sample.verified_once))
    = ["A"] /\
  AIVerificationPanel.expandedId
    (panel (Sample.page_after [ClickVerify; VerifySettles (Sample.verify_ok [])]))
    = None /\
  AIVerificationPanel.empty_result
    (AIVerificationPanel.render
       (panel (Sample.page_after [ClickVerify; VerifySettles (Sample.verify_ok [])])))
    = true.
Proof.
  assert (H0 : reachable (Sample.page_after [ClickVerify]))
    by (exists [ClickVerify]; reflexivity).
  destruct (successful_verify_expansion
              (Sample.page_after [ClickVerify])
              (Sample.page_after Sample.verified_once)
              (Sample.verify_ok [Sample.tradeA; Sample.tradeB])
              (Sample.verify_response [Sample.tradeA; Sample.tradeB])
              H0 eq_refl eq_refl) as (_ & HA & _).
  destruct (successful_verify_expansion
              (Sample.page_after [ClickVerify])
              (Sample.page_after [ClickVerify; VerifySettles (Sample.verify_ok [])])
              (Sample.verify_ok [])
              (Sample.verify_response [])
              H0 eq_refl eq_refl) as (_ & _ & HE & _).
  destruct (HA Sample.tradeA [Sample.tradeB] eq_refl) as (HA1 & _).
  destruct (HE eq_refl) as (HE1 & _ & HE3 & _).
  split; [exact HA1|]. split; [reflexivity|]. split; [exact HE1 | exact HE3].
Defined.

End RankedCards.

(** ** A scan request from click to settlement *)

Section ScanRequest.
Import MissionControl Trace.

Lemma step_keeps_opportunities (p p' : page) (e : event) :
  step p e = Some p' ->
  is_scan_settle e = false ->
  MarketMonitor.opportunities (monitor p') = MarketMonitor.opportunities (monitor p).
Proof.
  intros Hs He. destruct e; unfold step in Hs; try discriminate He.
  - destruct (MarketMonitor.isLoading (monitor p)); [discriminate|].
    now injection Hs as <-.
  - now injection Hs as <-.
  - destruct (MarketMonitor.isLoading (monitor p)); [discriminate|].
    destruct (nth_error _ i); [|discriminate]. now injection Hs as <-.
  - destruct (AIVerificationPanel.isLoading (panel p)); [discriminate|].
    now injection Hs as <-.
  - destruct (Nat.ltb 0 _); [|discriminate]. now injection Hs as <-.
  - destruct (verify_pending p); [|discriminate]. now injection Hs as <-.
  - destruct (nth_error _ i); [|discriminate]. now injection Hs as <-.
Qed.

Lemma step_keeps_scan_pending (p p' : page) (e : event) :
  step p e = Some p' ->
  is_scan_settle e = false ->
  MarketMonitor.isLoading (monitor p) = true /\ scan_pending p = true ->
  MarketMonitor.isLoading (monitor p') = true /\ scan_pending p' = true.
Proof.
  intros Hs He [Hl Hp]. destruct e; unfold step in Hs; try discriminate He.
  - rewrite Hl in Hs. discriminate.
  - injection Hs as <-. simpl. auto.
  - rewrite Hl in Hs. discriminate.
  - destruct (AIVerificationPanel.isLoading (panel p)); [discriminate|].
    injection Hs as <-. simpl. auto.
  - destruct (Nat.ltb 0 _); [|discriminate]. injection Hs as <-. simpl. auto.
  - destruct (verify_pending p); [|discriminate]. injection Hs as <-. simpl. auto.
  - destruct (nth_error _ i); [|discriminate]. injection Hs as <-. simpl. auto.
Qed.

Lemma run_keeps_opportunities (evs : list event) :
  forall p p',
    run p evs = Some p' ->
    during_scan evs ->
    MarketMonitor.opportunities (monitor p') = MarketMonitor.opportunities (monitor p).
Proof.
  unfold during_scan.
  induction evs as [|e evs IH]; intros p p' Hr Hd; simpl in Hr, Hd.
  - now injection Hr as <-.
  - destruct (step p e) as [q|] eqn:Hs; [|discriminate].
    apply andb_true_iff in Hd as [He Hd]. apply negb_true_iff in He.
    rewrite (IH q p' Hr Hd). eapply step_keeps_opportunities; eauto.
Qed.

Lemma run_keeps_scan_pending (evs : list event) :
  forall p p',
    run p evs = Some p' ->
    during_scan evs ->
    MarketMonitor.isLoading (monitor p) = true /\ scan_pending p = true ->
    MarketMonitor.isLoading (monitor p') = true /\ scan_pending p' = true.
Proof.
  unfold during_scan.
  induction evs as [|e evs IH]; intros p p' Hr Hd Hl; simpl in Hr, Hd.
  - now injection Hr as <-.
  - destruct (step p e) as [q|] eqn:Hs; [|discriminate].
    apply andb_true_iff in Hd as [He Hd]. apply negb_true_iff in He.
    eapply IH; eauto using step_keeps_scan_pending.
Qed.

(** C7. A scan that fails (the fetch rejects, or the response is not ok,
    such as a 500) leaves the opportunity list as it was before the scan
    button was clicked, adds the failure toast, ends loading, and the
    handler completes normally; a page on which no scan has settled has the
    empty list. *)
Theorem failed_scan_keeps_list
    (p p1 p2 : page) (evs : list event) (o : Http.settlement ScanResponse) :
  step p ClickScan = Some p1 ->
  run p1 evs = Some p2 ->
  during_scan evs ->
  Http.failed o = true ->
  Eff.returns_normally (MarketMonitor.fetchOpportunities_settle o) (monitor_world p2) /\
  (exists p3,
     step p2 (ScanSettles o) = Some p3 /\
     MarketMonitor.opportunities (monitor p3) = MarketMonitor.opportunities (monitor p) /\
     toasts (env p3) = (toasts (env p2) ++ [ToastError "Strategy Engine Offline"])%list /\
     MarketMonitor.isLoading (monitor p3) = false /\
     panel p3 = panel p2 /\
     selectedOpportunity p3 = selectedOpportunity p2) /\
  (forall evs0 q,
     run initial evs0 = Some q -> during_scan evs0 ->
     MarketMonitor.opportunities (monitor q) = []).
Proof.
  intros Hs Hr Hd Hf.
  split; [apply fetchOpportunities_settle_returns|]. split.
  - assert (H1 : MarketMonitor.isLoading (monitor p1) = true /\ scan_pending p1 = true).
    { unfold step in Hs. destruct (MarketMonitor.isLoading (monitor p)); [discriminate|].
      injection Hs as <-. simpl. auto. }
    destruct (run_keeps_scan_pending evs p1 p2 Hr Hd H1) as [Hl2 Hp2].
    destruct (fetchOpportunities_settle_undelivered o
                (failed_undelivered o Hf)) as [err H].
    eexists. split.
    { unfold step. rewrite Hp2. reflexivity. }
    unfold with_monitor, monitor_world, Eff.exec. rewrite H. simpl.
    repeat split.
    rewrite (run_keeps_opportunities evs p1 p2 Hr Hd).
    apply (step_keeps_opportunities p p1 ClickScan Hs). reflexivity.
  - intros evs0 q Hr0 Hd0. now rewrite (run_keeps_opportunities evs0 initial q Hr0 Hd0).
Qed.

Lemma failed_scan_keeps_list_witness :
  Eff.returns_normally
    (MarketMonitor.fetchOpportunities_settle Sample.http_500)
    (monitor_world
       (Sample.page_after
          [ClickScan; ScanSettles (Sample.scan_ok [Sample.plan "A"; Sample.plan "B"]);
           ClickOpportunity 1; ClickScan; TypeFilter "a"])) /\
  (exists p3,
     step (Sample.page_after
             [ClickScan; ScanSettles (Sample.scan_ok [Sample.plan "A"; Sample.plan "B"]);
              ClickOpportunity 1; ClickScan; TypeFilter "a"])
          (ScanSettles Sample.http_500) = Some p3 /\
     MarketMonitor.opportunities (monitor p3)
       = MarketMonitor.opportunities
           (monitor (Sample.page_after
                       [ClickScan;
                        ScanSettles (Sample.scan_ok [Sample.plan "A"; Sample.plan "B"]);
                        ClickOpportunity 1])) /\
     toasts (env p3) =
       (toasts (env (Sample.page_after
                       [ClickScan;
                        ScanSettles (Sample.scan_ok [Sample.plan "A"; Sample.plan "B"]);
                        ClickOpportunity 1; ClickScan; TypeFilter "a"]))
        ++ [ToastError "Strategy Engine Offline"])%list /\
     MarketMonitor.isLoading (monitor p3) = false /\
     panel p3 = panel (Sample.page_after
                         [ClickScan;
                          ScanSettles (Sample.scan_ok [Sample.plan "A"; Sample.plan "B"]);
                          ClickOpportunity 1; ClickScan; TypeFilter "a"]) /\
     selectedOpportunity p3
       = selectedOpportunity
           (Sample.page_after
              [ClickScan;
               ScanSettles (Sample.scan_ok [Sample.plan "A"; Sample.plan "B"]);
               ClickOpportunity 1; ClickScan; TypeFilter "a"])) /\
  (forall evs0 q,
     run initial evs0 = Some q -> during_scan evs0 ->
     MarketMonitor.opportunities (monitor q) = []).
Proof.
  apply (failed_scan_keeps_list
           (Sample.page_after
              [ClickScan; ScanSettles (Sample.scan_ok [Sample.plan "A"; Sample.plan "B"]);
               ClickOpportunity 1])
           (Sample.page_after
              [ClickScan; ScanSettles (Sample.scan_ok [Sample.plan "A"; Sample.plan "B"]);
               ClickOpportunity 1; ClickScan])
           (Sample.page_after
              [ClickScan; ScanSettles (Sample.scan_ok [Sample.plan "A"; Sample.plan "B"]);
               ClickOpportunity 1; ClickScan; TypeFilter "a"])
           [TypeFilter "a"]
           Sample.http_500).
  - vm_compute; reflexivity.
  - vm_compute; reflexivity.
  - vm_compute; reflexivity.
  - vm_compute; reflexivity.
Defined.

Example failed_scan_after_success_keeps_two :
  map market_id
    (MarketMonitor.opportunities
       (monitor (Sample.page_after
                   [ClickScan;
                    ScanSettles (Sample.scan_ok [Sample.plan "A"; Sample.plan "B"]);
                    ClickScan; ScanSettles Sample.http_500])))
  = ["A"; "B"].
Proof. reflexivity. Qed.

End ScanRequest.

(** ** List selection and detail expansion do not touch each other *)

Section Decoupled.
Import MissionControl Trace.

Lemma same_but_selection_refl (p : page) : same_but_selection p p.
Proof. unfold same_but_selection. auto. Qed.

Lemma same_but_expansion_refl (p : page) : same_but_expansion p p.
Proof. unfold same_but_expansion. repeat split. Qed.

(** No handler reads the list selection: a page that differs only there
    takes the same step. *)
Lemma step_same_but_selection (p q p' : page) (e : event) :
  same_but_selection p q ->
  step p e = Some p' ->
  if is_select e then same_but_selection p' q
  else exists q', step q e = Some q' /\ same_but_selection p' q'.
Proof.
  destruct p as [sp mp pp bp scp vp], q as [sq mq pq bq scq vq].
  unfold same_but_selection. simpl.
  intros (<- & <- & <- & <- & <-) Hs.
  destruct e; unfold step in *; simpl in *.
  - destruct (MarketMonitor.isLoading mp); [discriminate|].
    injection Hs as <-. eexists. split; [reflexivity|]. simpl. auto.
  - destruct scp; [|discriminate].
    injection Hs as <-. eexists. split; [reflexivity|]. simpl. auto.
  - injection Hs as <-. eexists. split; [reflexivity|]. simpl. auto.
  - destruct (MarketMonitor.isLoading mp); [discriminate|].
    destruct (nth_error _ i); [|discriminate].
    injection Hs as <-. simpl. auto.
  - destruct (AIVerificationPanel.isLoading pp); [discriminate|].
    injection Hs as <-. eexists. split; [reflexivity|]. simpl. auto.
  - destruct (Nat.ltb 0 (intervals bp)); [|discriminate].
    injection Hs as <-. eexists. split; [reflexivity|]. simpl. auto.
  - destruct vp; [|discriminate].
    injection Hs as <-. eexists. split; [reflexivity|]. simpl. auto.
  - destruct (nth_error _ i); [|discriminate].
    injection Hs as <-. eexists. split; [reflexivity|]. simpl. auto.
Qed.

(** No handler outside the verified list reads which card is open: a page
    that differs only there takes the same step. *)
Lemma step_same_but_expansion (p q p' : page) (e : event) :
  same_but_expansion p q ->
  step p e = Some p' ->
  if is_toggle e then same_but_expansion p' q
  else exists q', step q e = Some q' /\ same_but_expansion p' q'.
Proof.
  destruct p as [sp mp [lp rp cp xp] bp scp vp],
           q as [sq mq [lq rq cq xq] bq scq vq].
  unfold same_but_expansion. simpl.
  intros (<- & <- & <- & <- & <- & <- & <- & <-) Hs.
  destruct e; unfold step in *; simpl in *.
  - destruct (MarketMonitor.isLoading mp); [discriminate|].
    injection Hs as <-. eexists. split; [reflexivity|]. simpl. repeat split.
  - destruct scp; [|discriminate].
    injection Hs as <-. eexists. split; [reflexivity|]. simpl. repeat split.
  - injection Hs as <-. eexists. split; [reflexivity|]. simpl. repeat split.
  - destruct (MarketMonitor.isLoading mp); [discriminate|].
    destruct (nth_error _ i); [|discriminate].
    injection Hs as <-. eexists. split; [reflexivity|]. simpl. repeat split.
  - destruct lp; [discriminate|].
    injection Hs as <-. eexists. split; [reflexivity|]. simpl. repeat split.
  - destruct (Nat.ltb 0 (intervals bp)); [|discriminate].
    injection Hs as <-. eexists. split; [reflexivity|]. simpl. repeat split.
  - destruct vp; [|discriminate].
    injection Hs as <-. eexists. split; [reflexivity|].
    unfold with_panel, panel_world, Eff.exec. simpl.
    destruct (Http.delivered o) as [data|] eqn:E.
    + destruct (fetchTop3_settle_delivered o data E) as [nt H].
      rewrite !H. simpl. repeat split.
    + destruct (fetchTop3_settle_undelivered o E) as [err H].
      rewrite !H. simpl. repeat split.
  - destruct rp as [r|]; simpl in *.
    + destruct (nth_error _ i); [|discriminate].
      injection Hs as <-. simpl. repeat split.
    + destruct i; discriminate.
Qed.

Lemma run_without_selects (evs : list event) :
  forall p q p',
    same_but_selection p q ->
    run p evs = Some p' ->
    exists q',
      run q (filter (fun e => negb (is_select e)) evs) = Some q' /\
      same_but_selection p' q'.
Proof.
  induction evs as [|e evs IH]; intros p q p' Hpq Hr; simpl in Hr.
  - injection Hr as <-. exists q. split; [reflexivity | exact Hpq].
  - destruct (step p e) as [p1|] eqn:Hs; [|discriminate].
    pose proof (step_same_but_selection p q p1 e Hpq Hs) as H.
    simpl. destruct (is_select e); simpl.
    + eapply IH; eauto.
    + destruct H as (q1 & Hq & Hpq1). rewrite Hq. eapply IH; eauto.
Qed.

Lemma run_without_toggles (evs : list event) :
  forall p q p',
    same_but_expansion p q ->
    run p evs = Some p' ->
    exists q',
      run q (filter (fun e => negb (is_toggle e)) evs) = Some q' /\
      same_but_expansion p' q'.
Proof.
  induction evs as [|e evs IH]; intros p q p' Hpq Hr; simpl in Hr.
  - injection Hr as <-. exists q. split; [reflexivity | exact Hpq].
  - destruct (step p e) as [p1|] eqn:Hs; [|discriminate].
    pose proof (step_same_but_expansion p q p1 e Hpq Hs) as H.
    simpl. destruct (is_toggle e); simpl.
    + eapply IH; eauto.
    + destruct H as (q1 & Hq & Hpq1). rewrite Hq. eapply IH; eauto.
Qed.

(** C8. After any sequence of events: a click on a card of the flat list
    sets the list selection to that opportunity and changes nothing else
    on the page, the verification panel with its [expandedId] included
    (the Mission Control page has no ticker search to feed); a click on a
    verified card changes [expandedId] and leaves the list selection and
    the flat list as they were. Over the whole sequence, dropping every
    flat-list click leads to the same verification panel, and dropping
    every verified-card click leads to the same list selection. *)
Theorem selection_and_expansion_decoupled (evs : list event) (p : page) :
  run initial evs = Some p ->
  (forall i p',
     step p (ClickOpportunity i) = Some p' ->
     selectedOpportunity p' = nth_error (MarketMonitor.opportunities (monitor p)) i /\
     AIVerificationPanel.expandedId (panel p') = AIVerificationPanel.expandedId (panel p) /\
     panel p' = panel p /\ monitor p' = monitor p /\ env p' = env p) /\
  (forall i p',
     step p (ClickVerified i) = Some p' ->
     selectedId p' = selectedId p /\
     selectedOpportunity p' = selectedOpportunity p /\
     monitor p' = monitor p /\ env p' = env p) /\
  (exists q,
     run initial (filter (fun e => negb (is_select e)) evs) = Some q /\
     panel q = panel p) /\
  (exists q,
     run initial (filter (fun e => negb (is_toggle e)) evs) = Some q /\
     selectedOpportunity q = selectedOpportunity p).
Proof.
  intro Hr. split; [|split; [|split]].
  - intros i p' Hs. unfold step in Hs.
    destruct (MarketMonitor.isLoading (monitor p)); [discriminate|].
    destruct (nth_error _ i) as [opp|]; [|discriminate].
    injection Hs as <-. simpl. auto.
  - intros i p' Hs. unfold step in Hs.
    destruct (nth_error _ i); [|discriminate].
    injection Hs as <-. unfold selectedId. simpl. auto.
  - destruct (run_without_selects evs initial initial p
                (same_but_selection_refl initial) Hr) as (q & Hq & Hpq).
    exists q. split; [exact Hq|]. symmetry. apply Hpq.
  - destruct (run_without_toggles evs initial initial p
                (same_but_expansion_refl initial) Hr) as (q & Hq & Hpq).
    exists q. split; [exact Hq|]. symmetry. apply Hpq.
Qed.

Lemma selection_and_expansion_decoupled_witness :
  (forall i p',
     step (Sample.page_after Sample.busy_session) (ClickOpportunity i) = Some p' ->
     selectedOpportunity p'
       = nth_error (MarketMonitor.opportunities
                      (monitor (Sample.page_after Sample.busy_session))) i /\
     AIVerificationPanel.expandedId (panel p')
       = AIVerificationPanel.expandedId (panel (Sample.page_after Sample.busy_session)) /\
     panel p' = panel (Sample.page_after Sample.busy_session) /\
     monitor p' = monitor (Sample.page_after Sample.busy_session) /\
     env p' = env (Sample.page_after Sample.busy_session)) /\
  (forall i p',
     step (Sample.page_after Sample.busy_session) (ClickVerified i) = Some p' ->
     selectedId p' = selectedId (Sample.page_after Sample.busy_session) /\
     selectedOpportunity p' = selectedOpportunity (Sample.page_after Sample.busy_session) /\
     monitor p' = monitor (Sample.page_after Sample.busy_session) /\
     env p' = env (Sample.page_after Sample.busy_session)) /\
  (exists q,
     run initial (filter (fun e => negb (is_select e)) Sample.busy_session) = Some q /\
     panel q = panel (Sample.page_after Sample.busy_session)) /\
  (exists q,
     run initial (filter (fun e => negb (is_toggle e)) Sample.busy_session) = Some q /\
     selectedOpportunity q = selectedOpportunity (Sample.page_after Sample.busy_session)).
Proof.
  apply (selection_and_expansion_decoupled Sample.busy_session).
  vm_compute. reflexivity.
Defined.

Example busy_session_selection_and_expansion :
  selectedId (Sample.page_after Sample.busy_session) = Some "B" /\
  AIVerificationPanel.expandedId (panel (Sample.page_after Sample.busy_session)) = None /\
  selectedId (Sample.page_after (Sample.busy_session ++ [ClickVerified 0])) = Some "B" /\
  AIVerificationPanel.expandedId
    (panel (Sample.page_after (Sample.busy_session ++ [ClickVerified 0]))) = Some "A" /\
  AIVerificationPanel.expandedId
    (panel (Sample.page_after
              (Sample.busy_session ++ [ClickVerified 0; ClickOpportunity 0]))) = Some "A".
Proof. vm_compute. repeat split. Qed.

End Decoupled.

(** ** Recent searches of the dashboard *)

Section RecentSearches.
Import Dashboard Trace.

Lemma In_firstn {A} (n : nat) :
  forall (l : list A) (x : A), In x (firstn n l) -> In x l.
Proof.
  induction n as [|n IH]; intros [|y l] x H; simpl in H; try contradiction.
  destruct H as [<- | H]; [now left | right; now apply IH].
Qed.

Lemma NoDup_firstn {A} (n : nat) :
  forall l : list A, NoDup l -> NoDup (firstn n l).
Proof.
  induction n as [|n IH]; intros [|y l] H; simpl; try constructor.
  - inversion H; subst. intro Hin. apply In_firstn in Hin. contradiction.
  - inversion H; subst. now apply IH.
Qed.

Lemma add_recent_cons (t : string) (prev : list string) :
  add_recent t prev
  = t :: firstn 4 (filter (fun x => negb (String.eqb x t)) prev).
Proof. reflexivity. Qed.

Lemma add_recent_NoDup (t : string) (prev : list string) :
  NoDup prev -> NoDup (add_recent t prev).
Proof.
  intro H. unfold add_recent. apply NoDup_firstn. constructor.
  - intro Hin. apply filter_In in Hin as [_ Hne].
    now rewrite String.eqb_refl in Hne.
  - now apply NoDup_filter.
Qed.

Lemma add_recent_length (t : string) (prev : list string) :
  List.length (add_recent t prev) <= 5.
Proof. unfold add_recent. apply firstn_le_length. Qed.

(** Analysing the ticker that is already first changes nothing. *)
Lemma add_recent_again (t : string) (prev : list string) :
  add_recent t (add_recent t prev) = add_recent t prev.
Proof.
  rewrite (add_recent_cons t prev), add_recent_cons.
  cbn [filter]. rewrite String.eqb_refl. cbn [negb].
  f_equal.
  rewrite (forallb_filter_id (fun x => negb (String.eqb x t))).
  - rewrite firstn_firstn. reflexivity.
  - apply forallb_forall. intros x Hx. apply In_firstn in Hx.
    now apply filter_In in Hx.
Qed.

Lemma step_recent_ok (p p' : page) (e : event) :
  step p e = Some p' ->
  recent_ok (recentSearches (ui p)) -> recent_ok (recentSearches (ui p')).
Proof.
  intros Hs Hok. destruct e; unfold step in Hs.
  - now injection Hs as <-.
  - destruct (nth_error _ i); [|discriminate]. now injection Hs as <-.
  - destruct (isAnalyzing (ui p)); [discriminate|].
    unfold handleAnalyze_start in Hs. simpl in Hs.
    destruct (String.eqb (selectedTicker (ui p)) "").
    + injection Hs as <-. exact Hok.
    + injection Hs as <-. simpl. split.
      * apply add_recent_NoDup, Hok.
      * apply add_recent_length.
  - destruct (pending p); [|discriminate]. injection Hs as <-.
    unfold Eff.exec. simpl.
    destruct o as [reason | [ok st [|d]]]; try destruct ok; exact Hok.
Qed.

Lemma run_recent_ok (evs : list event) :
  forall p p',
    run p evs = Some p' ->
    recent_ok (recentSearches (ui p)) -> recent_ok (recentSearches (ui p')).
Proof.
  induction evs as [|e evs IH]; intros p p' Hr Hok; simpl in Hr.
  - now injection Hr as <-.
  - destruct (step p e) as [q|] eqn:Hs; [|discriminate].
    eapply IH; eauto using step_recent_ok.
Qed.

(** C10. In every state the dashboard reaches, the recent-searches list
    has no duplicate and at most five entries, and it still has after a
    click on the analyse button. When that click triggers an analysis (the
    ticker box is not empty), the analysed ticker is the first entry,
    followed by the earlier entries other than it in their earlier order,
    cut to four; analysing the same ticker again leaves the list as it is. *)
Theorem recent_searches_invariant (evs : list event) (p : page) :
  run initial_page evs = Some p ->
  NoDup (recentSearches (ui p)) /\
  List.length (recentSearches (ui p)) <= 5 /\
  forall p',
    step p ClickAnalyze = Some p' ->
    NoDup (recentSearches (ui p')) /\
    List.length (recentSearches (ui p')) <= 5 /\
    (selectedTicker (ui p) <> "" ->
     pending p' = true /\
     analyzedTicker (ui p') = Some (selectedTicker (ui p)) /\
     hd_error (recentSearches (ui p')) = Some (selectedTicker (ui p)) /\
     recentSearches (ui p')
       = selectedTicker (ui p)
         :: firstn 4 (filter (fun x => negb (String.eqb x (selectedTicker (ui p))))
                             (recentSearches (ui p))) /\
     add_recent (selectedTicker (ui p)) (recentSearches (ui p'))
       = recentSearches (ui p')) /\
    (selectedTicker (ui p) = "" ->
     pending p' = false /\
     recentSearches (ui p') = recentSearches (ui p)).
Proof.
  intro Hr.
  assert (Hok : recent_ok (recentSearches (ui p))).
  { apply (run_recent_ok evs initial_page p Hr). split; [constructor | simpl; lia]. }
  split; [apply Hok|]. split; [apply Hok|].
  intros p' Hs.
  pose proof (step_recent_ok p p' ClickAnalyze Hs Hok) as Hok'.
  split; [apply Hok'|]. split; [apply Hok'|].
  unfold step in Hs. destruct (isAnalyzing (ui p)); [discriminate|].
  unfold handleAnalyze_start in Hs. simpl in Hs.
  destruct (String.eqb (selectedTicker (ui p)) "") eqn:E.
  - apply String.eqb_eq in E. injection Hs as <-. simpl.
    split; [intro Hne; contradiction | auto].
  - apply String.eqb_neq in E. injection Hs as <-. simpl.
    split; [|intro He; contradiction].
    intros _. repeat split. apply add_recent_again.
Qed.

Lemma recent_searches_invariant_witness :
  recentSearches (ui (Sample.dashboard_after (Sample.six_analyses ++ [ClickAnalyze])))
    = ["TSLA"; "GOOG"; "AMZN"; "NVDA"; "MSFT"] /\
  NoDup (recentSearches
           (ui (Sample.dashboard_after (Sample.six_analyses ++ [ClickAnalyze])))) /\
  List.length
    (recentSearches
       (ui (Sample.dashboard_after (Sample.six_analyses ++ [ClickAnalyze])))) <= 5 /\
  hd_error
    (recentSearches
       (ui (Sample.dashboard_after (Sample.six_analyses ++ [ClickAnalyze]))))
    = Some "TSLA".
Proof.
  destruct (recent_searches_invariant Sample.six_analyses
              (Sample.dashboard_after Sample.six_analyses))
    as (_ & _ & H).
  - vm_compute; reflexivity.
  - destruct (H (Sample.dashboard_after (Sample.six_analyses ++ [ClickAnalyze])))
      as (Hnd & Hlen & Hhead & _).
    + vm_compute; reflexivity.
    + destruct Hhead as (_ & _ & Hhd & _).
      * vm_compute. discriminate.
      * split; [vm_compute; reflexivity|]. split; [exact Hnd|].
        split; [exact Hlen | exact Hhd].
Defined.

Example sixth_ticker_drops_the_oldest :
  recentSearches (ui (Sample.dashboard_after Sample.six_analyses))
    = ["GOOG"; "AMZN"; "NVDA"; "TSLA"; "MSFT"] /\
  selectedTicker (ui (Sample.dashboard_after Sample.six_analyses)) = "TSLA".
Proof. vm_compute. split; reflexivity. Qed.

Example empty_ticker_is_not_analysed :
  recentSearches
    (ui (Sample.dashboard_after [SetTicker ""; ClickAnalyze])) = [] /\
  pending (Sample.dashboard_after [SetTicker ""; ClickAnalyze]) = false.
Proof. vm_compute. split; reflexivity. Qed.

End RecentSearches.

(** * Further properties *)

(** ** Badge colours *)

(** X1. [getRecommendationColor] gives EXECUTE, SKIP and WAIT three
    different classes and every other string, a differently cased one
    included, the muted default, which is none of the three;
    [getConfidenceColor] does the same for HIGH, MEDIUM and LOW. *)
Theorem badge_colours_distinguish (r : string) :
  (getRecommendationColor r = "text-muted-foreground bg-muted"
   <-> (r <> "EXECUTE" /\ r <> "SKIP" /\ r <> "WAIT")) /\
  (getConfidenceColor r = "text-muted-foreground"
   <-> (r <> "HIGH" /\ r <> "MEDIUM" /\ r <> "LOW")) /\
  NoDup (map getRecommendationColor ["EXECUTE"; "SKIP"; "WAIT"; "execute"]) /\
  NoDup (map getConfidenceColor ["HIGH"; "MEDIUM"; "LOW"; "high"]).
Proof.
  split; [|split; [|split]].
  - unfold getRecommendationColor.
    destruct (String.eqb_spec r "EXECUTE") as [->|H1]; [split; [discriminate | tauto]|].
    destruct (String.eqb_spec r "SKIP") as [->|H2]; [split; [discriminate | tauto]|].
    destruct (String.eqb_spec r "WAIT") as [->|H3]; [split; [discriminate | tauto]|].
    tauto.
  - unfold getConfidenceColor.
    destruct (String.eqb_spec r "HIGH") as [->|H1]; [split; [discriminate | tauto]|].
    destruct (String.eqb_spec r "MEDIUM") as [->|H2]; [split; [discriminate | tauto]|].
    destruct (String.eqb_spec r "LOW") as [->|H3]; [split; [discriminate | tauto]|].
    tauto.
  - simpl. repeat constructor; simpl; intuition discriminate.
  - simpl. repeat constructor; simpl; intuition discriminate.
Qed.

(** ** Edge styling of a card *)

Lemma gt_zero_ge_zero (e : Js.number) :
  Js.gt e (Js.of_Z 0) = true -> Js.ge e (Js.of_Z 0) = true.
Proof.
  destruct e as [| | |q]; simpl; try discriminate; try reflexivity.
  intro H. apply negb_true_iff in H. apply Qle_bool_iff.
  destruct (Qlt_le_dec (inject_Z 0) q) as [Hlt|Hle].
  - now apply Qlt_le_weak.
  - apply Qle_bool_iff in Hle. congruence.
Qed.

(** X2. On an expanded card the colour of the edge figure and the border
    of the edge box always belong to the same tier, for every number the
    service may send (not-a-number and the infinities included), and a
    leading plus sign is never put on an edge of the negative tier. *)
Theorem edge_styling_agrees (v : Strategy1VerifiedTrade) (rank : nat) :
  let card := VerifiedTradeCard.render
                {| VerifiedTradeCard.verified := v;
                   VerifiedTradeCard.rank := rank;
                   VerifiedTradeCard.isExpanded := true |} in
  let header := VerifiedTradeCard.card_header card in
  exists box,
    VerifiedTradeCard.card_evidence card = Some box /\
    In (VerifiedTradeCard.edge_class header, VerifiedTradeCard.edge_border box)
       [(strong_positive_tier, "border-emerald-500/50 bg-emerald-500/5");
        (marginal_tier, "border-amber-500/50 bg-amber-500/5");
        (negative_tier, "border-rose-500/50 bg-rose-500/5")] /\
    (VerifiedTradeCard.edge_sign header = "+" ->
     VerifiedTradeCard.edge_class header <> negative_tier).
Proof.
  simpl. eexists. split; [reflexivity|]. simpl. unfold getEdgeColor. split.
  - destruct (Js.ge (edge v) (Js.of_Z 5)); [now left|].
    destruct (Js.ge (edge v) (Js.of_Z 0)); [right; now left | right; right; now left].
  - destruct (Js.gt (edge v) (Js.of_Z 0)) eqn:Eg; [|discriminate].
    intros _. rewrite (gt_zero_ge_zero _ Eg).
    destruct (Js.ge (edge v) (Js.of_Z 5)); discriminate.
Qed.

(** ** The progress timeline *)

Section Timeline.
Import MissionControl Trace.

(** X3. Whenever the timeline is on screen, in any state the page can
    reach, it has five cells of which exactly one is the current one, the
    cells before it are complete and the cells after it are neither; the
    row with all five cells complete is never shown. *)
Theorem timeline_has_one_current_cell
    (p : page) (cells : list AIVerificationPanel.progress_cell) :
  reachable p ->
  AIVerificationPanel.timeline (AIVerificationPanel.render (panel p)) = Some cells ->
  exists k,
    k < 5 /\
    AIVerificationPanel.currentStep (panel p) = Z.of_nat k /\
    map AIVerificationPanel.isCurrent cells = map (Nat.eqb k) (seq 0 5) /\
    map AIVerificationPanel.isComplete cells = map (fun i => Nat.ltb i k) (seq 0 5).
Proof.
  intros Hp Ht. simpl in Ht.
  destruct (AIVerificationPanel.isLoading (panel p)) eqn:El; [|discriminate].
  injection Ht as <-.
  destruct (loading_panel p Hp El) as (_ & _ & _ & _ & Hc).
  rewrite N_is_5 in Hc.
  exists (Z.to_nat (AIVerificationPanel.currentStep (panel p))).
  assert (Hk : AIVerificationPanel.currentStep (panel p) = 0%Z \/
               AIVerificationPanel.currentStep (panel p) = 1%Z \/
               AIVerificationPanel.currentStep (panel p) = 2%Z \/
               AIVerificationPanel.currentStep (panel p) = 3%Z \/
               AIVerificationPanel.currentStep (panel p) = 4%Z) by lia.
  unfold Js.mapi.
  destruct Hk as [-> | [-> | [-> | [-> | ->]]]]; simpl; repeat split; lia.
Qed.

Lemma timeline_has_one_current_cell_witness :
  exists k,
    k < 5 /\
    AIVerificationPanel.currentStep
      (panel (Sample.page_after [ClickVerify; TimerTick; TimerTick])) = Z.of_nat k /\
    map AIVerificationPanel.isCurrent
        (Js.mapi
           (fun step i =>
              {| AIVerificationPanel.cell_id := id step;
                 AIVerificationPanel.isComplete := Z.ltb (Z.of_nat i) 2;
                 AIVerificationPanel.isCurrent := Z.eqb (Z.of_nat i) 2 |})
           timelineSteps)
      = map (Nat.eqb k) (seq 0 5) /\
    map AIVerificationPanel.isComplete
        (Js.mapi
           (fun step i =>
              {| AIVerificationPanel.cell_id := id step;
                 AIVerificationPanel.isComplete := Z.ltb (Z.of_nat i) 2;
                 AIVerificationPanel.isCurrent := Z.eqb (Z.of_nat i) 2 |})
           timelineSteps)
      = map (fun i => Nat.ltb i k) (seq 0 5).
Proof.
  apply (timeline_has_one_current_cell
           (Sample.page_after [ClickVerify; TimerTick; TimerTick])).
  - exists [ClickVerify; TimerTick; TimerTick]. vm_compute; reflexivity.
  - vm_compute; reflexivity.
Defined.

(** X4. In every state the page can reach there is at most one step
    timer, and it is live exactly while a verification request is pending,
    which is exactly while the verify button is disabled; a second request
    cannot be started meanwhile, and whichever way the request settles, no
    timer is left behind. *)
Theorem one_timer_per_request (p : page) :
  reachable p ->
  intervals (env p) = (if verify_pending p then 1 else 0) /\
  AIVerificationPanel.button_disabled (AIVerificationPanel.render (panel p))
    = verify_pending p /\
  (verify_pending p = true -> step p ClickVerify = None) /\
  (forall o p',
     step p (VerifySettles o) = Some p' ->
     intervals (env p') = 0 /\ verify_pending p' = false /\ step p' TimerTick = None).
Proof.
  intro Hp. destruct (reachable_panel_inv p Hp) as (Hpend & Hint & _).
  split; [now rewrite Hpend|]. split; [simpl; now rewrite Hpend|]. split.
  - intro H. unfold step. now rewrite <- Hpend, H.
  - intros o p' Hs.
    assert (Hp' : reachable p') by (eapply reachable_step; eauto).
    destruct (reachable_panel_inv p' Hp') as (Hpend' & Hint' & _).
    assert (Hv : verify_pending p' = false).
    { unfold step in Hs. destruct (verify_pending p); [|discriminate].
      now injection Hs as <-. }
    rewrite <- Hpend', Hv in Hint'.
    split; [exact Hint'|]. split; [exact Hv|].
    unfold step. now rewrite Hint'.
Qed.

Lemma one_timer_per_request_witness :
  intervals (env (Sample.page_after Sample.five_ticks))
    = (if verify_pending (Sample.page_after Sample.five_ticks) then 1 else 0) /\
  AIVerificationPanel.button_disabled
    (AIVerificationPanel.render (panel (Sample.page_after Sample.five_ticks)))
    = verify_pending (Sample.page_after Sample.five_ticks) /\
  (verify_pending (Sample.page_after Sample.five_ticks) = true ->
   step (Sample.page_after Sample.five_ticks) ClickVerify = None) /\
  (forall o p',
     step (Sample.page_after Sample.five_ticks) (VerifySettles o) = Some p' ->
     intervals (env p') = 0 /\ verify_pending p' = false /\ step p' TimerTick = None).
Proof.
  apply (one_timer_per_request (Sample.page_after Sample.five_ticks)).
  exists Sample.five_ticks. vm_compute; reflexivity.
Defined.

End Timeline.

(** ** The open card belongs to the response on display *)

Section FreshExpansion.
Import MissionControl Trace Inv.

Lemma card_of_response (s : AIVerificationPanel.state) (i : nat)
    (card : VerifiedTradeCard.props) :
  nth_error (AIVerificationPanel.cards (AIVerificationPanel.render s)) i = Some card ->
  exists r,
    AIVerificationPanel.response s = Some r /\
    In (market_id (trade (VerifiedTradeCard.verified card)))
       (map (fun v => market_id (trade v)) (top_opportunities r)).
Proof.
  simpl. destruct (AIVerificationPanel.response s) as [r|]; [|destruct i; discriminate].
  intro Hn. exists r. split; [reflexivity|].
  apply nth_error_In in Hn. apply In_mapi_from in Hn as (x & k & Hx & ->). simpl.
  apply in_map_iff. eauto.
Qed.

Lemma expansion_fresh_step (p p' : page) (e : event) :
  step p e = Some p' ->
  panel_inv p ->
  expansion_fresh (panel p) -> expansion_fresh (panel p').
Proof.
  intros Hs (Hpend & _ & Hnone & Hsome) Hf. destruct e; unfold step in Hs.
  - destruct (MarketMonitor.isLoading (monitor p)); [discriminate|].
    now injection Hs as <-.
  - destruct (scan_pending p); [|discriminate]. now injection Hs as <-.
  - now injection Hs as <-.
  - destruct (MarketMonitor.isLoading (monitor p)); [discriminate|].
    destruct (nth_error _ i); [|discriminate]. now injection Hs as <-.
  - destruct (AIVerificationPanel.isLoading (panel p)); [discriminate|].
    injection Hs as <-. intros m Hm. discriminate Hm.
  - destruct (Nat.ltb 0 _); [|discriminate]. injection Hs as <-. exact Hf.
  - destruct (verify_pending p) eqn:Ep; [|discriminate]. injection Hs as <-.
    unfold with_panel, panel_world, Eff.exec.
    destruct (Http.delivered o) as [data|] eqn:E.
    + destruct (fetchTop3_settle_delivered o data E) as [nt H].
      rewrite H. simpl. intros m Hm. simpl in Hm. exists data. split; [reflexivity|].
      destruct (top_opportunities data) as [|first rest].
      * assert (Hr : AIVerificationPanel.response (panel p) = None).
        { destruct (AIVerificationPanel.response (panel p)) eqn:Er; [|reflexivity].
          destruct Hsome as [Hl _]; [discriminate | congruence]. }
        destruct (Hnone Hr) as [He _]. congruence.
      * injection Hm as <-. now left.
    + destruct (fetchTop3_settle_undelivered o E) as [err H].
      rewrite H. simpl. exact Hf.
  - destruct (nth_error _ i) as [card|] eqn:En; [|discriminate].
    injection Hs as <-. simpl. intros m Hm.
    unfold AIVerificationPanel.toggleExpand in Hm. simpl in Hm.
    destruct (card_of_response (panel p) i card En) as (r & Hr & Hin).
    exists r. split; [exact Hr|].
    destruct (Js.strict_eq _ _); [discriminate|]. now injection Hm as <-.
Qed.

Lemma expansion_fresh_run (evs : list event) :
  forall p p',
    run p evs = Some p' ->
    panel_inv p -> expansion_fresh (panel p) -> expansion_fresh (panel p').
Proof.
  induction evs as [|e evs IH]; intros p p' Hr Hi Hf; simpl in Hr.
  - now injection Hr as <-.
  - destruct (step p e) as [q|] eqn:Hs; [|discriminate].
    eapply IH; eauto using panel_inv_step, expansion_fresh_step.
Qed.

(** X5. In every state the page can reach, the identifier held as
    expanded is the market id of a trade of the response on display, so at
    least one card is shown open; it never points at a trade of an earlier
    response or at nothing while a request is loading. *)
Theorem expanded_card_is_on_display (p : page) (m : string) :
  reachable p ->
  AIVerificationPanel.expandedId (panel p) = Some m ->
  AIVerificationPanel.isLoading (panel p) = false /\
  (exists r,
     AIVerificationPanel.response (panel p) = Some r /\
     In m (map (fun v => market_id (trade v)) (top_opportunities r))) /\
  In m (AIVerificationPanel.expanded_set (panel p)).
Proof.
  intros [evs Hr] Hm.
  assert (Hf : expansion_fresh (panel p)).
  { eapply expansion_fresh_run; [exact Hr | exact panel_inv_initial |].
    intros x Hx. discriminate Hx. }
  destruct (Hf m Hm) as (r & Hresp & Hin).
  destruct (reachable_panel_inv p (ex_intro _ evs Hr)) as (_ & _ & _ & Hsome).
  split; [apply Hsome; congruence|]. split; [eauto|].
  unfold AIVerificationPanel.expanded_set. simpl. rewrite Hresp, Hm.
  apply in_map_iff in Hin as (v & <- & Hv).
  apply In_nth_error in Hv as [i Hi].
  apply in_map_iff.
  exists {| VerifiedTradeCard.verified := v;
            VerifiedTradeCard.rank := i + 1;
            VerifiedTradeCard.isExpanded :=
              String.eqb (market_id (trade v)) (market_id (trade v)) |}.
  split; [reflexivity|]. apply filter_In. split.
  - apply (nth_error_In _ i). unfold Js.mapi. rewrite nth_error_mapi_from, Hi. reflexivity.
  - simpl. apply String.eqb_refl.
Qed.

Lemma expanded_card_is_on_display_witness :
  AIVerificationPanel.isLoading
    (panel (Sample.page_after (Sample.verified_once ++ [ClickVerified 1]))) = false /\
  (exists r,
     AIVerificationPanel.response
       (panel (Sample.page_after (Sample.verified_once ++ [ClickVerified 1]))) = Some r /\
     In "B" (map (fun v => market_id (trade v)) (top_opportunities r))) /\
  In "B" (AIVerificationPanel.expanded_set
            (panel (Sample.page_after (Sample.verified_once ++ [ClickVerified 1])))).
Proof.
  apply (expanded_card_is_on_display
           (Sample.page_after (Sample.verified_once ++ [ClickVerified 1])) "B").
  - exists (Sample.verified_once ++ [ClickVerified 1])%list. vm_compute; reflexivity.
  - vm_compute; reflexivity.
Defined.

End FreshExpansion.

(** ** The notice a verification ends with *)

Section VerifyNotice.

(** X6. However a verification request settles, [fetchTop3] adds exactly
    one toast: the error toast when no payload was delivered; the success
    toast with the number of EXECUTE recommendations when there is at
    least one; the "review recommendations" notice when trades came back
    but none is EXECUTE; the "no opportunities" notice when the list is
    empty. *)
Theorem verify_ends_with_one_toast
    (s : AIVerificationPanel.state) (b : browser)
    (o : Http.settlement Strategy1VerifyResponse) :
  let after := snd (Eff.exec (AIVerificationPanel.fetchTop3_settle o) (s, b)) in
  (Http.delivered o = None ->
   toasts after = (toasts b ++ [ToastError "Verification failed"])%list) /\
  (forall data,
     Http.delivered o = Some data ->
     let execCount :=
       List.length (filter (fun t => String.eqb (recommendation t) "EXECUTE")
                           (top_opportunities data)) in
     (0 < execCount ->
      toasts after =
        (toasts b ++
         [ToastSuccess ("Found " ++ Js.show_nat execCount ++ " executable trades!")])%list) /\
     (execCount = 0 -> top_opportunities data <> [] ->
      toasts after =
        (toasts b ++ [ToastInfo "Analysis complete - review recommendations"])%list) /\
     (top_opportunities data = [] ->
      toasts after = (toasts b ++ [ToastInfo "No opportunities found right now"])%list)).
Proof.
  simpl. split.
  - intro E. destruct (fetchTop3_settle_undelivered o E) as [err H].
    unfold Eff.exec. rewrite H. reflexivity.
  - intros data E.
    destruct o as [reason | [ok st [|d]]]; simpl in E; try discriminate;
      destruct ok; try discriminate.
    injection E as ->.
    unfold AIVerificationPanel.fetchTop3_settle. run_handler.
    split; [|split].
    + intro Hk. apply Nat.ltb_lt in Hk. rewrite Hk.
      destruct (top_opportunities data); reflexivity.
    + intros Hk Hne. rewrite Hk. simpl.
      destruct (top_opportunities data) as [|first rest]; [contradiction | reflexivity].
    + intros ->. reflexivity.
Qed.

Example two_executable_of_three :
  toasts (snd (Eff.exec
                 (AIVerificationPanel.fetchTop3_settle
                    (Sample.verify_ok
                       [Sample.tradeA; Sample.tradeB;
                        Sample.verified_trade "C" 6 "EXECUTE" None None]))
                 (AIVerificationPanel.initial, browser0)))
  = [ToastSuccess "Found 2 executable trades!"].
Proof. vm_compute. reflexivity. Qed.

End VerifyNotice.

(** ** A scan that delivers a payload *)

Section ScanDelivered.
Import MissionControl Trace.

(** X7. A scan whose payload carries [trades] replaces the opportunity
    list by them (it does not append), ends loading, logs nothing, keeps
    the list selection, and shows the success toast with the count only
    when the list is not empty: an empty result is silent. *)
Theorem delivered_scan_replaces_list
    (p p' : page) (o : Http.settlement ScanResponse)
    (data : ScanResponse) (l : list TradePlan) :
  step p (ScanSettles o) = Some p' ->
  Http.delivered o = Some data ->
  trades data = Some l ->
  MarketMonitor.opportunities (monitor p') = l /\
  MarketMonitor.isLoading (monitor p') = false /\
  toasts (env p') =
    (toasts (env p) ++
     match l with
     | [] => []
     | _ :: _ =>
         [ToastSuccess ("Found " ++ Js.show_nat (List.length l) ++ " opportunities")]
     end)%list /\
  console (env p') = console (env p) /\
  selectedOpportunity p' = selectedOpportunity p.
Proof.
  intros Hs E Ht. unfold step in Hs.
  destruct (scan_pending p); [|discriminate]. injection Hs as <-.
  destruct o as [reason | [ok st [|d]]]; simpl in E; try discriminate;
    destruct ok; try discriminate.
  injection E as ->. destruct data as [tr]. simpl in Ht. subst tr.
  unfold with_monitor, monitor_world, MarketMonitor.fetchOpportunities_settle,
    MarketMonitor.trades_length.
  run_handler.
  destruct l as [|x l]; simpl.
  - rewrite app_nil_r. repeat split.
  - repeat split.
Qed.

Lemma delivered_scan_replaces_list_witness :
  MarketMonitor.opportunities
    (monitor (Sample.page_after
                [ClickScan; ScanSettles (Sample.scan_ok [Sample.plan "A"; Sample.plan "B"]);
                 ClickScan; ScanSettles (Sample.scan_ok [Sample.plan "C"])]))
    = [Sample.plan "C"] /\
  MarketMonitor.isLoading
    (monitor (Sample.page_after
                [ClickScan; ScanSettles (Sample.scan_ok [Sample.plan "A"; Sample.plan "B"]);
                 ClickScan; ScanSettles (Sample.scan_ok [Sample.plan "C"])]))
    = false /\
  toasts
    (env (Sample.page_after
            [ClickScan; ScanSettles (Sample.scan_ok [Sample.plan "A"; Sample.plan "B"]);
             ClickScan; ScanSettles (Sample.scan_ok [Sample.plan "C"])]))
    = (toasts
         (env (Sample.page_after
                 [ClickScan;
                  ScanSettles (Sample.scan_ok [Sample.plan "A"; Sample.plan "B"]);
                  ClickScan]))
       ++ [ToastSuccess ("Found " ++ Js.show_nat 1 ++ " opportunities")])%list /\
  console
    (env (Sample.page_after
            [ClickScan; ScanSettles (Sample.scan_ok [Sample.plan "A"; Sample.plan "B"]);
             ClickScan; ScanSettles (Sample.scan_ok [Sample.plan "C"])]))
    = console
        (env (Sample.page_after
                [ClickScan;
                 ScanSettles (Sample.scan_ok [Sample.plan "A"; Sample.plan "B"]);
                 ClickScan])) /\
  selectedOpportunity
    (Sample.page_after
       [ClickScan; ScanSettles (Sample.scan_ok [Sample.plan "A"; Sample.plan "B"]);
        ClickScan; ScanSettles (Sample.scan_ok [Sample.plan "C"])])
    = selectedOpportunity
        (Sample.page_after
           [ClickScan; ScanSettles (Sample.scan_ok [Sample.plan "A"; Sample.plan "B"]);
            ClickScan]).
Proof.
  apply (delivered_scan_replaces_list
           (Sample.page_after
              [ClickScan; ScanSettles (Sample.scan_ok [Sample.plan "A"; Sample.plan "B"]);
               ClickScan])
           (Sample.page_after
              [ClickScan; ScanSettles (Sample.scan_ok [Sample.plan "A"; Sample.plan "B"]);
               ClickScan; ScanSettles (Sample.scan_ok [Sample.plan "C"])])
           (Sample.scan_ok [Sample.plan "C"])
           {| trades := Some [Sample.plan "C"] |}
           [Sample.plan "C"]).
  - vm_compute; reflexivity.
  - reflexivity.
  - reflexivity.
Defined.

(** X8. A scan that is answered with an ok response whose payload has no
    [trades] empties the opportunity list and then fails on
    [data.trades.length]: the user sees the "Strategy Engine Offline"
    toast, a [TypeError] is logged, loading ends and the handler still
    completes normally. Unlike a failed request, this loses the list that
    was on display. *)
Theorem scan_without_trades_empties_list
    (p p' : page) (o : Http.settlement ScanResponse) (data : ScanResponse) :
  step p (ScanSettles o) = Some p' ->
  Http.delivered o = Some data ->
  trades data = None ->
  MarketMonitor.opportunities (monitor p') = [] /\
  MarketMonitor.isLoading (monitor p') = false /\
  toasts (env p') = (toasts (env p) ++ [ToastError "Strategy Engine Offline"])%list /\
  (exists message, console (env p') = (console (env p) ++ [Js.TypeError message])%list) /\
  Eff.returns_normally (MarketMonitor.fetchOpportunities_settle o) (monitor_world p).
Proof.
  intros Hs E Ht. unfold step in Hs.
  destruct (scan_pending p); [|discriminate]. injection Hs as <-.
  split; [|split; [|split; [|split; [|apply fetchOpportunities_settle_returns]]]];
    destruct o as [reason | [ok st [|d]]]; simpl in E; try discriminate;
    destruct ok; try discriminate;
    injection E as ->; destruct data as [tr]; simpl in Ht; subst tr;
    unfold with_monitor, monitor_world, MarketMonitor.fetchOpportunities_settle,
      MarketMonitor.trades_length;
    run_handler; try reflexivity.
  eexists. reflexivity.
Qed.

Lemma scan_without_trades_empties_list_witness :
  MarketMonitor.opportunities
    (monitor (Sample.page_after
                [ClickScan; ScanSettles (Sample.scan_ok [Sample.plan "A"; Sample.plan "B"]);
                 ClickScan; ScanSettles Scenario.scan_without_trades]))
    = [] /\
  MarketMonitor.isLoading
    (monitor (Sample.page_after
                [ClickScan; ScanSettles (Sample.scan_ok [Sample.plan "A"; Sample.plan "B"]);
                 ClickScan; ScanSettles Scenario.scan_without_trades]))
    = false /\
  toasts
    (env (Sample.page_after
            [ClickScan; ScanSettles (Sample.scan_ok [Sample.plan "A"; Sample.plan "B"]);
             ClickScan; ScanSettles Scenario.scan_without_trades]))
    = (toasts
         (env (Sample.page_after
                 [ClickScan;
                  ScanSettles (Sample.scan_ok [Sample.plan "A"; Sample.plan "B"]);
                  ClickScan]))
       ++ [ToastError "Strategy Engine Offline"])%list /\
  (exists message,
     console
       (env (Sample.page_after
               [ClickScan; ScanSettles (Sample.scan_ok [Sample.plan "A"; Sample.plan "B"]);
                ClickScan; ScanSettles Scenario.scan_without_trades]))
     = (console
          (env (Sample.page_after
                  [ClickScan;
                   ScanSettles (Sample.scan_ok [Sample.plan "A"; Sample.plan "B"]);
                   ClickScan]))
        ++ [Js.TypeError message])%list) /\
  Eff.returns_normally
    (MarketMonitor.fetchOpportunities_settle Scenario.scan_without_trades)
    (monitor_world
       (Sample.page_after
          [ClickScan; ScanSettles (Sample.scan_ok [Sample.plan "A"; Sample.plan "B"]);
           ClickScan])).
Proof.
  apply (scan_without_trades_empties_list
           (Sample.page_after
              [ClickScan; ScanSettles (Sample.scan_ok [Sample.plan "A"; Sample.plan "B"]);
               ClickScan])
           (Sample.page_after
              [ClickScan; ScanSettles (Sample.scan_ok [Sample.plan "A"; Sample.plan "B"]);
               ClickScan; ScanSettles Scenario.scan_without_trades])
           Scenario.scan_without_trades
           {| trades := None |}).
  - vm_compute; reflexivity.
  - reflexivity.
  - reflexivity.
Defined.

End ScanDelivered.

(** ** The flat list as rendered *)

Section FlatList.
Import MissionControl Trace.

Lemma includes_empty (s : string) : Text.includes s "" = true.
Proof. destruct s; reflexivity. Qed.

(** X9. The flat list shows no card while a scan is loading; otherwise
    its cards are opportunities of the last delivered list, in the order
    of that list, none twice over and none invented, so each card that can
    be clicked is one of [opportunities]; typing in the filter box changes
    nothing but the query; and with an empty query every opportunity is
    shown. *)
Theorem filtered_cards_come_from_the_list
    (toLowerCase : string -> string) (selectedId : option string)
    (s : MarketMonitor.state) :
  toLowerCase "" = "" ->
  let v := MarketMonitorView.render toLowerCase selectedId s in
  (MarketMonitor.isLoading s = true -> MarketMonitorView.cards v = []) /\
  (exists keep,
     MarketMonitor.isLoading s = false ->
     map MarketMonitorView.opp (MarketMonitorView.cards v)
       = filter keep (MarketMonitor.opportunities s)) /\
  (forall c, In c (MarketMonitorView.cards v) ->
     exists i, nth_error (MarketMonitor.opportunities s) i = Some (MarketMonitorView.opp c)) /\
  (forall q,
     MarketMonitor.opportunities (MarketMonitor.setSearchQuery q s)
       = MarketMonitor.opportunities s /\
     MarketMonitor.isLoading (MarketMonitor.setSearchQuery q s)
       = MarketMonitor.isLoading s) /\
  (MarketMonitor.isLoading s = false -> MarketMonitor.searchQuery s = "" ->
   map MarketMonitorView.opp (MarketMonitorView.cards v) = MarketMonitor.opportunities s).
Proof.
  intros Hlow. simpl. split; [|split; [|split; [|split]]].
  - intros ->. reflexivity.
  - exists (MarketMonitorView.matches toLowerCase (MarketMonitor.searchQuery s)).
    intros ->. rewrite map_map. simpl. now rewrite map_id.
  - intros c Hc. destruct (MarketMonitor.isLoading s); [contradiction|].
    apply in_map_iff in Hc as (o & <- & Ho). simpl.
    unfold MarketMonitorView.filteredOpportunities in Ho.
    apply filter_In in Ho as [Ho _]. now apply In_nth_error.
  - intro q. split; reflexivity.
  - intros -> Hq. rewrite map_map. simpl. rewrite map_id.
    unfold MarketMonitorView.filteredOpportunities. rewrite Hq.
    apply forallb_filter_id. apply forallb_forall. intros o _.
    unfold MarketMonitorView.matches. now rewrite Hlow, includes_empty.
Qed.

Lemma filtered_cards_come_from_the_list_witness :
  map (fun c => market_id (MarketMonitorView.opp c))
      (MarketMonitorView.cards
         (MarketMonitorView.render Scenario.ascii_lower None (Scenario.scanned "")))
  = ["A"; "B"].
Proof.
  destruct (filtered_cards_come_from_the_list
              Scenario.ascii_lower None (Scenario.scanned "") eq_refl)
    as (_ & _ & _ & _ & H).
  rewrite <- map_map. rewrite (H eq_refl eq_refl). reflexivity.
Defined.

Lemma filter_all_false {A} (f : A -> bool) (l : list A) :
  (forall x, In x l -> f x = false) -> filter f l = [].
Proof.
  induction l as [|x l IH]; intro H; simpl; [reflexivity|].
  rewrite (H x (or_introl eq_refl)). apply IH. intros y Hy. apply H. now right.
Qed.

(** X10. When the list holds opportunities and the query matches none of
    them, the list area is blank: no card, no spinner and no "No trades
    found" notice, since that notice looks at the unfiltered list. *)
Theorem unmatched_filter_leaves_blank_area
    (toLowerCase : string -> string) (selectedId : option string)
    (s : MarketMonitor.state) :
  MarketMonitor.isLoading s = false ->
  MarketMonitor.opportunities s <> [] ->
  (forall o, In o (MarketMonitor.opportunities s) ->
             MarketMonitorView.matches toLowerCase (MarketMonitor.searchQuery s) o = false) ->
  let v := MarketMonitorView.render toLowerCase selectedId s in
  MarketMonitorView.cards v = [] /\
  MarketMonitorView.scanning v = false /\
  MarketMonitorView.no_trades v = false.
Proof.
  intros Hl Hne Hno. simpl. rewrite Hl. split; [|split].
  - unfold MarketMonitorView.filteredOpportunities.
    now rewrite (filter_all_false _ _ Hno).
  - reflexivity.
  - destruct (MarketMonitor.opportunities s); [contradiction | reflexivity].
Qed.

Lemma unmatched_filter_leaves_blank_area_witness :
  MarketMonitorView.cards
    (MarketMonitorView.render Scenario.ascii_lower (Some "A") (Scenario.scanned "zz")) = [] /\
  MarketMonitorView.scanning
    (MarketMonitorView.render Scenario.ascii_lower (Some "A") (Scenario.scanned "zz")) = false /\
  MarketMonitorView.no_trades
    (MarketMonitorView.render Scenario.ascii_lower (Some "A") (Scenario.scanned "zz")) = false.
Proof.
  apply (unmatched_filter_leaves_blank_area
           Scenario.ascii_lower (Some "A") (Scenario.scanned "zz")).
  - reflexivity.
  - discriminate.
  - intros o [<- | [<- | []]]; vm_compute; reflexivity.
Defined.

Example filter_is_case_insensitive_on_ascii :
  map (fun c => market_id (MarketMonitorView.opp c))
      (MarketMonitorView.cards
         (MarketMonitorView.render Scenario.ascii_lower None (Scenario.scanned "kxb")))
  = ["B"].
Proof. vm_compute. reflexivity. Qed.

(** X11. The list selection changes on a click in the flat list and on
    nothing else: a rescan, a typed filter and every event of the
    verification panel leave it as it is, so it can outlive the list it was
    picked from. After a click the highlighted cards are exactly the cards
    with the market id of the clicked opportunity. *)
Theorem selection_changes_only_on_list_click
    (toLowerCase : string -> string) (p p' : page) (e : event) :
  step p e = Some p' ->
  (is_select e = false -> selectedOpportunity p' = selectedOpportunity p) /\
  (forall i,
     e = ClickOpportunity i ->
     exists o,
       nth_error (MarketMonitor.opportunities (monitor p)) i = Some o /\
       selectedId p' = Some (market_id o) /\
       forall c,
         In c (MarketMonitorView.cards
                 (MarketMonitorView.render toLowerCase (selectedId p') (monitor p'))) ->
         (MarketMonitorView.isSelected c = true
          <-> market_id (MarketMonitorView.opp c) = market_id o)).
Proof.
  intro Hs. split.
  - intro He. destruct e; unfold step in Hs; try discriminate He.
    + destruct (MarketMonitor.isLoading (monitor p)); [discriminate|].
      now injection Hs as <-.
    + destruct (scan_pending p); [|discriminate]. now injection Hs as <-.
    + now injection Hs as <-.
    + destruct (AIVerificationPanel.isLoading (panel p)); [discriminate|].
      now injection Hs as <-.
    + destruct (Nat.ltb 0 _); [|discriminate]. now injection Hs as <-.
    + destruct (verify_pending p); [|discriminate]. now injection Hs as <-.
    + destruct (nth_error _ i); [|discriminate]. now injection Hs as <-.
  - intros i ->. unfold step in Hs.
    destruct (MarketMonitor.isLoading (monitor p)) eqn:El; [discriminate|].
    destruct (nth_error _ i) as [o|] eqn:En; [|discriminate].
    injection Hs as <-. exists o. split; [reflexivity|]. split; [reflexivity|].
    intros c Hc. unfold selectedId in *. simpl in *. rewrite El in Hc.
    apply in_map_iff in Hc as (x & <- & _). simpl.
    rewrite String.eqb_eq. split; intro H; now symmetry.
Qed.

Lemma selection_changes_only_on_list_click_witness :
  (is_select (ScanSettles (Sample.scan_ok [Sample.plan "C"])) = false ->
   selectedOpportunity
     (Sample.page_after
        [ClickScan; ScanSettles (Sample.scan_ok [Sample.plan "A"; Sample.plan "B"]);
         ClickOpportunity 1; ClickScan; ScanSettles (Sample.scan_ok [Sample.plan "C"])])
   = selectedOpportunity
       (Sample.page_after
          [ClickScan; ScanSettles (Sample.scan_ok [Sample.plan "A"; Sample.plan "B"]);
           ClickOpportunity 1; ClickScan])) /\
  (forall i,
     ScanSettles (Sample.scan_ok [Sample.plan "C"]) = ClickOpportunity i ->
     exists o,
       nth_error
         (MarketMonitor.opportunities
            (monitor
               (Sample.page_after
                  [ClickScan;
                   ScanSettles (Sample.scan_ok [Sample.plan "A"; Sample.plan "B"]);
                   ClickOpportunity 1; ClickScan]))) i = Some o /\
       selectedId
         (Sample.page_after
            [ClickScan; ScanSettles (Sample.scan_ok [Sample.plan "A"; Sample.plan "B"]);
             ClickOpportunity 1; ClickScan;
             ScanSettles (Sample.scan_ok [Sample.plan "C"])]) = Some (market_id o) /\
       forall c,
         In c (MarketMonitorView.cards
                 (MarketMonitorView.render Scenario.ascii_lower
                    (selectedId
                       (Sample.page_after
                          [ClickScan;
                           ScanSettles (Sample.scan_ok [Sample.plan "A"; Sample.plan "B"]);
                           ClickOpportunity 1; ClickScan;
                           ScanSettles (Sample.scan_ok [Sample.plan "C"])]))
                    (monitor
                       (Sample.page_after
                          [ClickScan;
                           ScanSettles (Sample.scan_ok [Sample.plan "A"; Sample.plan "B"]);
                           ClickOpportunity 1; ClickScan;
                           ScanSettles (Sample.scan_ok [Sample.plan "C"])])))) ->
         (MarketMonitorView.isSelected c = true
          <-> market_id (MarketMonitorView.opp c) = market_id o)).
Proof.
  apply (selection_changes_only_on_list_click Scenario.ascii_lower
           (Sample.page_after
              [ClickScan; ScanSettles (Sample.scan_ok [Sample.plan "A"; Sample.plan "B"]);
               ClickOpportunity 1; ClickScan])
           (Sample.page_after
              [ClickScan; ScanSettles (Sample.scan_ok [Sample.plan "A"; Sample.plan "B"]);
               ClickOpportunity 1; ClickScan;
               ScanSettles (Sample.scan_ok [Sample.plan "C"])])
           (ScanSettles (Sample.scan_ok [Sample.plan "C"]))).
  vm_compute; reflexivity.
Defined.

(** After a rescan without B the selection is still B and no card is lit. *)
Example selection_survives_a_rescan :
  selectedId
    (Sample.page_after
       [ClickScan; ScanSettles (Sample.scan_ok [Sample.plan "A"; Sample.plan "B"]);
        ClickOpportunity 1; ClickScan; ScanSettles (Sample.scan_ok [Sample.plan "C"])])
    = Some "B" /\
  map MarketMonitorView.isSelected
      (MarketMonitorView.cards
         (MarketMonitorView.render Scenario.ascii_lower (Some "B")
            (monitor
               (Sample.page_after
                  [ClickScan;
                   ScanSettles (Sample.scan_ok [Sample.plan "A"; Sample.plan "B"]);
                   ClickOpportunity 1; ClickScan;
                   ScanSettles (Sample.scan_ok [Sample.plan "C"])]))))
    = [false].
Proof. vm_compute. split; reflexivity. Qed.

End FlatList.

(** ** An analysis on the dashboard from click to settlement *)

Section Analysis.
Import Dashboard Inv.

Lemma handleAnalyze_settle_delivered
    (o : Http.settlement strategy_t) (st : strategy_t) :
  Http.delivered o = Some st ->
  forall (s : state) (b : browser),
    handleAnalyze_settle o (s, b) =
      (Eff.Normal tt,
       (setIsAnalyzing false (setStrategy (Some st) s),
        push_toast (ToastSuccess "Strategy generated successfully!") b)).
Proof.
  destruct o as [reason | [ok code [|d]]]; simpl; try discriminate;
    destruct ok; try discriminate.
  intros [= <-] s b. reflexivity.
Qed.

Lemma handleAnalyze_settle_undelivered (o : Http.settlement strategy_t) :
  Http.delivered o = None ->
  exists logged, forall (s : state) (b : browser),
    handleAnalyze_settle o (s, b) =
      (Eff.Normal tt,
       (setIsAnalyzing false s,
        push_toast (ToastError "Failed to generate strategy.") (logged b))) /\
    toasts (logged b) = toasts b.
Proof.
  destruct o as [reason | [ok code [|d]]]; simpl.
  - intros _. exists (log_error reason). intros s b. split; reflexivity.
  - intros _. destruct ok.
    + eexists (log_error _). intros s b. split; reflexivity.
    + eexists (fun b => log_error _ (log_error _ b)). intros s b. split; reflexivity.
  - destruct ok; [discriminate|]. intros _.
    eexists (fun b => log_error _ (log_error _ b)). intros s b. split; reflexivity.
Qed.

Lemma step_dashboard_inv (p p' : page) (e : event) :
  step p e = Some p' -> dashboard_inv p -> dashboard_inv p'.
Proof.
  intros Hs (Hp & Ha & Hst). destruct e; unfold step in Hs.
  - injection Hs as <-. unfold dashboard_inv. simpl. auto.
  - destruct (nth_error _ i); [|discriminate].
    injection Hs as <-. unfold dashboard_inv. simpl. auto.
  - destruct (isAnalyzing (ui p)) eqn:Ea; [discriminate|].
    unfold handleAnalyze_start in Hs. simpl in Hs.
    destruct (String.eqb (selectedTicker (ui p)) "").
    + injection Hs as <-. unfold dashboard_inv. simpl. rewrite Ea. auto.
    + injection Hs as <-. unfold dashboard_inv. simpl. auto.
  - destruct (pending p) eqn:Ep; [|discriminate]. injection Hs as <-.
    unfold Eff.exec, dashboard_inv.
    destruct (Http.delivered o) as [st|] eqn:E.
    + rewrite (handleAnalyze_settle_delivered o st E). simpl.
      repeat split; auto; discriminate.
    + destruct (handleAnalyze_settle_undelivered o E) as [lg H].
      rewrite (proj1 (H _ _)). simpl. repeat split; auto; discriminate.
Qed.

Lemma run_dashboard_inv (evs : list event) :
  forall p p', run p evs = Some p' -> dashboard_inv p -> dashboard_inv p'.
Proof.
  induction evs as [|e evs IH]; intros p p' Hr Hi; simpl in Hr.
  - now injection Hr as <-.
  - destruct (step p e) as [q|] eqn:Hs; [|discriminate].
    eapply IH; eauto using step_dashboard_inv.
Qed.

(** X13. In every state the dashboard reaches: the ticker handed to the
    price chart is the first entry of the recent-searches list (both are
    absent before the first analysis); a request is pending exactly while
    the analyse button is disabled; and no strategy is on display while an
    analysis is running. Typing a ticker or picking one from the recent
    list changes none of the three, so neither starts a fetch. *)
Theorem chart_ticker_is_latest_search (evs : list event) (p : page) :
  run initial_page evs = Some p ->
  analyzedTicker (ui p) = hd_error (recentSearches (ui p)) /\
  pending p = isAnalyzing (ui p) /\
  (isAnalyzing (ui p) = true -> strategy (ui p) = None) /\
  (forall t p',
     step p (SetTicker t) = Some p' ->
     analyzedTicker (ui p') = analyzedTicker (ui p) /\
     recentSearches (ui p') = recentSearches (ui p) /\
     strategy (ui p') = strategy (ui p) /\
     pending p' = pending p /\ env p' = env p) /\
  (forall i p',
     step p (ClickRecent i) = Some p' ->
     Some (selectedTicker (ui p')) = nth_error (recentSearches (ui p)) i /\
     analyzedTicker (ui p') = analyzedTicker (ui p) /\
     recentSearches (ui p') = recentSearches (ui p) /\
     strategy (ui p') = strategy (ui p) /\
     pending p' = pending p /\ env p' = env p).
Proof.
  intro Hr.
  assert (Hi : dashboard_inv p).
  { apply (run_dashboard_inv evs initial_page p Hr).
    unfold dashboard_inv. simpl. repeat split. }
  destruct Hi as (Hp & Ha & Hst).
  split; [exact Ha|]. split; [exact Hp|]. split; [exact Hst|]. split.
  - intros t p' Hs. unfold step in Hs. injection Hs as <-. simpl. auto.
  - intros i p' Hs. unfold step in Hs.
    destruct (nth_error _ i) as [t|]; [|discriminate].
    injection Hs as <-. simpl. repeat split.
Qed.

Lemma chart_ticker_is_latest_search_witness :
  analyzedTicker (ui (Sample.dashboard_after Sample.six_analyses))
    = hd_error (recentSearches (ui (Sample.dashboard_after Sample.six_analyses))) /\
  pending (Sample.dashboard_after Sample.six_analyses)
    = isAnalyzing (ui (Sample.dashboard_after Sample.six_analyses)) /\
  (isAnalyzing (ui (Sample.dashboard_after Sample.six_analyses)) = true ->
   strategy (ui (Sample.dashboard_after Sample.six_analyses)) = None) /\
  (forall t p',
     step (Sample.dashboard_after Sample.six_analyses) (SetTicker t) = Some p' ->
     analyzedTicker (ui p')
       = analyzedTicker (ui (Sample.dashboard_after Sample.six_analyses)) /\
     recentSearches (ui p')
       = recentSearches (ui (Sample.dashboard_after Sample.six_analyses)) /\
     strategy (ui p') = strategy (ui (Sample.dashboard_after Sample.six_analyses)) /\
     pending p' = pending (Sample.dashboard_after Sample.six_analyses) /\
     env p' = env (Sample.dashboard_after Sample.six_analyses)) /\
  (forall i p',
     step (Sample.dashboard_after Sample.six_analyses) (ClickRecent i) = Some p' ->
     Some (selectedTicker (ui p'))
       = nth_error (recentSearches (ui (Sample.dashboard_after Sample.six_analyses))) i /\
     analyzedTicker (ui p')
       = analyzedTicker (ui (Sample.dashboard_after Sample.six_analyses)) /\
     recentSearches (ui p')
       = recentSearches (ui (Sample.dashboard_after Sample.six_analyses)) /\
     strategy (ui p') = strategy (ui (Sample.dashboard_after Sample.six_analyses)) /\
     pending p' = pending (Sample.dashboard_after Sample.six_analyses) /\
     env p' = env (Sample.dashboard_after Sample.six_analyses)).
Proof.
  apply (chart_ticker_is_latest_search Sample.six_analyses).
  vm_compute; reflexivity.
Defined.

Lemma step_during_analysis (p p' : page) (e : event) :
  step p e = Some p' ->
  is_analyze_settle e = false ->
  isAnalyzing (ui p) = true /\ pending p = true ->
  (isAnalyzing (ui p') = true /\ pending p' = true) /\
  analyzedTicker (ui p') = analyzedTicker (ui p) /\
  recentSearches (ui p') = recentSearches (ui p) /\
  strategy (ui p') = strategy (ui p) /\
  env p' = env p.
Proof.
  intros Hs He [Ha Hp]. destruct e; unfold step in Hs; try discriminate He.
  - injection Hs as <-. simpl. auto.
  - destruct (nth_error _ i); [|discriminate]. injection Hs as <-. simpl. auto.
  - rewrite Ha in Hs. discriminate.
Qed.

Lemma run_during_analysis (evs : list event) :
  forall p p',
    run p evs = Some p' ->
    during_analysis evs ->
    isAnalyzing (ui p) = true /\ pending p = true ->
    (isAnalyzing (ui p') = true /\ pending p' = true) /\
    analyzedTicker (ui p') = analyzedTicker (ui p) /\
    recentSearches (ui p') = recentSearches (ui p) /\
    strategy (ui p') = strategy (ui p) /\
    env p' = env p.
Proof.
  unfold during_analysis.
  induction evs as [|e evs IH]; intros p p' Hr Hd Hl; simpl in Hr, Hd.
  - injection Hr as <-. auto.
  - destruct (step p e) as [q|] eqn:Hs; [|discriminate].
    apply andb_true_iff in Hd as [He Hd]. apply negb_true_iff in He.
    destruct (step_during_analysis p q e Hs He Hl) as (Hq & H1 & H2 & H3 & H4).
    destruct (IH q p' Hr Hd Hq) as (Hq' & G1 & G2 & G3 & G4).
    repeat split; try apply Hq'; congruence.
Qed.

(** X12. An analysis of a non-empty ticker, from the click to the
    settlement, with any typing or picking of tickers in between: the
    chart ticker and the head of the recent list are the ticker that was in
    the box at the click, whatever was typed since and however the request
    ends; it ends with exactly one toast; a delivered payload becomes the
    strategy on display, and without one no strategy is displayed, the
    earlier one having been cleared at the click. *)
Theorem analysis_from_click_to_settlement
    (p p1 p2 : page) (evs : list event) (o : Http.settlement strategy_t) :
  isAnalyzing (ui p) = false ->
  selectedTicker (ui p) <> "" ->
  step p ClickAnalyze = Some p1 ->
  run p1 evs = Some p2 ->
  during_analysis evs ->
  exists p3,
    step p2 (AnalyzeSettles o) = Some p3 /\
    analyzedTicker (ui p3) = Some (selectedTicker (ui p)) /\
    hd_error (recentSearches (ui p3)) = Some (selectedTicker (ui p)) /\
    selectedTicker (ui p3) = selectedTicker (ui p2) /\
    isAnalyzing (ui p3) = false /\
    pending p3 = false /\
    (Http.delivered o = None ->
     strategy (ui p3) = None /\
     toasts (env p3) = (toasts (env p) ++ [ToastError "Failed to generate strategy."])%list) /\
    (forall st,
       Http.delivered o = Some st ->
       strategy (ui p3) = Some st /\
       toasts (env p3)
         = (toasts (env p) ++ [ToastSuccess "Strategy generated successfully!"])%list).
Proof.
  intros Ha Hne Hs Hr Hd.
  unfold step in Hs. rewrite Ha in Hs.
  unfold handleAnalyze_start in Hs. simpl in Hs.
  apply String.eqb_neq in Hne. rewrite Hne in Hs. injection Hs as <-.
  destruct (run_during_analysis evs _ p2 Hr Hd (conj eq_refl eq_refl))
    as ((Ha2 & Hp2) & H1 & H2 & H3 & H4).
  simpl in H1, H2, H3, H4.
  unfold step. rewrite Hp2. eexists. split; [reflexivity|].
  unfold Eff.exec.
  destruct (Http.delivered o) as [st|] eqn:E.
  - rewrite (handleAnalyze_settle_delivered o st E). simpl.
    rewrite H1, H2, H4. repeat split; try discriminate; congruence.
  - destruct (handleAnalyze_settle_undelivered o E) as [lg H].
    destruct (H (ui p2) (env p2)) as [Hrun Hto]. rewrite Hrun. simpl.
    rewrite H1, H2, H3, Hto, H4. repeat split; discriminate.
Qed.

Lemma analysis_from_click_to_settlement_witness :
  exists p3,
    step (Sample.dashboard_after [ClickAnalyze; SetTicker "MSFT"])
         (AnalyzeSettles Sample.http_500) = Some p3 /\
    analyzedTicker (ui p3) = Some (selectedTicker (ui initial_page)) /\
    hd_error (recentSearches (ui p3)) = Some (selectedTicker (ui initial_page)) /\
    selectedTicker (ui p3)
      = selectedTicker (ui (Sample.dashboard_after [ClickAnalyze; SetTicker "MSFT"])) /\
    isAnalyzing (ui p3) = false /\
    pending p3 = false /\
    (Http.delivered (@Sample.http_500 strategy_t) = None ->
     strategy (ui p3) = None /\
     toasts (env p3)
       = (toasts (env initial_page) ++ [ToastError "Failed to generate strategy."])%list) /\
    (forall st,
       Http.delivered (@Sample.http_500 strategy_t) = Some st ->
       strategy (ui p3) = Some st /\
       toasts (env p3)
         = (toasts (env initial_page)
            ++ [ToastSuccess "Strategy generated successfully!"])%list).
Proof.
  apply (analysis_from_click_to_settlement
           initial_page
           (Sample.dashboard_after [ClickAnalyze])
           (Sample.dashboard_after [ClickAnalyze; SetTicker "MSFT"])
           [SetTicker "MSFT"]
           Sample.http_500).
  - reflexivity.
  - discriminate.
  - vm_compute; reflexivity.
  - vm_compute; reflexivity.
  - reflexivity.
Defined.

End Analysis.

(** ** The price chart's fetch *)

Section ChartFetch.
Import PriceChart.

(** X14. [fetchChartData] never shows a toast and always ends loading and
    completes normally. Only an ok response with a decodable body changes
    the chart: it becomes the data and lifts the placeholder for good.
    Anything else keeps the data and the placeholder as they were, and a
    response that is not ok leaves no trace at all, not even in the
    console. *)
Theorem chart_fetch_fails_silently
    (s : state) (b : browser) (o : Http.settlement (list ChartDataPoint)) :
  let after := Eff.exec (fetchChartData_settle o) (s, b) in
  Eff.returns_normally (fetchChartData_settle o) (s, b) /\
  toasts (snd after) = toasts b /\
  loading (fst after) = false /\
  (forall json,
     Http.delivered o = Some json ->
     data (fst after) = json /\ hasFetched (fst after) = true /\
     forall ticker, placeholder (Some ticker) (fst after) = String.eqb ticker "") /\
  (Http.delivered o = None ->
   data (fst after) = data s /\ hasFetched (fst after) = hasFetched s /\
   forall ticker, placeholder ticker (fst after) = placeholder ticker s) /\
  (forall res, o = Http.Resolves res -> Http.ok res = false ->
               console (snd after) = console b).
Proof.
  unfold Eff.returns_normally, Eff.exec.
  destruct o as [reason | [ok code [|d]]]; try destruct ok; simpl;
    (split; [exists tt; reflexivity|]);
    repeat split; try discriminate; try congruence.
  - intros res [= <-]. discriminate.
  - intros ticker. unfold placeholder. simpl.
    now rewrite orb_false_r, negb_involutive.
Qed.

Example chart_survives_a_500 :
  data (fst (Eff.exec (fetchChartData_settle Sample.http_500)
                      (Scenario.chart_shown, browser0))) = Scenario.chart_points /\
  snd (Eff.exec (fetchChartData_settle Sample.http_500)
                (Scenario.chart_shown, browser0)) = browser0.
Proof. vm_compute. split; reflexivity. Qed.

End ChartFetch.

(** ** The market scout *)

Section Scout.
Import MarketScout.

Lemma handleScout_delivered
    (o : Http.settlement (list ScoutResult)) (found : list ScoutResult) :
  Http.delivered o = Some found ->
  forall (s : state) (b : browser),
    handleScout o (s, b) =
      (Eff.Normal tt,
       (setIsScanning false (setResults found (setResults [] (setIsScanning true s))),
        match found with
        | [] => push_toast (ToastInfo "No candidates found matching criteria.") b
        | _ :: _ => b
        end)).
Proof.
  destruct o as [reason | [ok code [|d]]]; simpl; try discriminate;
    destruct ok; try discriminate.
  intros [= ->] s b. destruct found; reflexivity.
Qed.

Lemma handleScout_undelivered (o : Http.settlement (list ScoutResult)) :
  Http.delivered o = None ->
  exists err, forall (s : state) (b : browser),
    handleScout o (s, b) =
      (Eff.Normal tt,
       (setIsScanning false (setResults [] (setIsScanning true s)),
        push_toast (ToastError "Failed to fetch market candidates.")
                   (log_error err b))).
Proof.
  destruct o as [reason | [ok code [|d]]]; simpl.
  - intros _. exists reason. reflexivity.
  - intros _. destruct ok; eexists; reflexivity.
  - destruct ok; [discriminate|]. intros _. eexists; reflexivity.
Qed.

(** X15. [handleScout] empties the result list before it fetches, so after
    a failed request no result is left, whatever was listed before, and
    the hint under the button is back; the error toast is shown. A
    delivered list becomes the results, with a notice only when it is
    empty. Either way scanning ends, the handler completes normally, and
    the highlighted ticker is kept even when its result is gone. *)
Theorem scout_empties_before_fetching
    (s : state) (b : browser) (o : Http.settlement (list ScoutResult)) :
  let after := Eff.exec (handleScout o) (s, b) in
  Eff.returns_normally (handleScout o) (s, b) /\
  isScanning (fst after) = false /\
  selectedTicker (fst after) = selectedTicker s /\
  (Http.delivered o = None ->
   results (fst after) = [] /\
   shows_hint (fst after) = true /\
   toasts (snd after)
     = (toasts b ++ [ToastError "Failed to fetch market candidates."])%list) /\
  (forall found,
     Http.delivered o = Some found ->
     results (fst after) = found /\
     toasts (snd after)
       = (toasts b ++
          match found with
          | [] => [ToastInfo "No candidates found matching criteria."]
          | _ :: _ => []
          end)%list).
Proof.
  unfold Eff.returns_normally, Eff.exec.
  destruct (Http.delivered o) as [found|] eqn:E.
  - rewrite (handleScout_delivered o found E). simpl.
    split; [exists tt; reflexivity|].
    split; [reflexivity|]. split; [reflexivity|]. split; [discriminate|].
    intros found' [= <-]. split; [reflexivity|].
    destruct found; simpl; [reflexivity | now rewrite app_nil_r].
  - destruct (handleScout_undelivered o E) as [err H]. rewrite H. simpl.
    split; [exists tt; reflexivity|].
    split; [reflexivity|]. split; [reflexivity|]. split; [|discriminate].
    intros _. repeat split.
Qed.

Example failed_scout_loses_the_results :
  results (fst (Eff.exec (handleScout Sample.offline) (Scenario.scouted, browser0))) = [] /\
  selectedTicker (fst (Eff.exec (handleScout Sample.offline) (Scenario.scouted, browser0)))
    = Some "NVDA".
Proof. vm_compute. split; reflexivity. Qed.

Lemma prefix_app (n rest : string) : String.prefix n (n ++ rest) = true.
Proof.
  induction n as [|c n IH]; simpl; [destruct rest; reflexivity|].
  destruct (Ascii.ascii_dec c c); [exact IH | contradiction].
Qed.

Lemma prefix_split (n s : string) :
  String.prefix n s = true -> exists rest, s = n ++ rest.
Proof.
  revert s. induction n as [|c n IH]; intros s H.
  - exists s. reflexivity.
  - destruct s as [|d s]; simpl in H; [discriminate|].
    destruct (Ascii.ascii_dec c d) as [->|]; [|discriminate].
    destruct (IH s H) as [rest ->]. exists rest. reflexivity.
Qed.

Lemma includes_unfold (s n : string) :
  Text.includes s n =
  String.prefix n s ||
  match s with
  | EmptyString => false
  | String _ s' => Text.includes s' n
  end.
Proof. destruct s; reflexivity. Qed.

Lemma includes_spec (s n : string) :
  Text.includes s n = true <-> exists before rest, s = before ++ n ++ rest.
Proof.
  split.
  - induction s as [|c s IH]; intro H; rewrite includes_unfold in H.
    + rewrite orb_false_r in H. apply prefix_split in H as [rest Hr].
      exists "", rest. exact Hr.
    + apply orb_true_iff in H as [H | H].
      * apply prefix_split in H as [rest Hr]. exists "", rest. exact Hr.
      * destruct (IH H) as (before & rest & ->).
        exists (String c before), rest. reflexivity.
  - intros (before & rest & ->).
    induction before as [|c before IH].
    + change ("" ++ n ++ rest) with (n ++ rest).
      rewrite includes_unfold, prefix_app. reflexivity.
    + simpl. rewrite IH. apply orb_true_r.
Qed.

(** X16. The sentiment badge of a scout result is styled as positive
    exactly when the label contains "Bullish" somewhere, whatever else it
    contains ("Bearish" included), and as negative exactly when it contains
    "Bearish" and not "Bullish"; the match is case-sensitive, and every
    other label, the empty one included, gets the neutral style. *)
Theorem sentiment_badge_by_substring (label : string) :
  (sentiment_class label = "border-success text-success"
   <-> exists before rest, label = before ++ "Bullish" ++ rest) /\
  (sentiment_class label = "border-destructive text-destructive"
   <-> (exists before rest, label = before ++ "Bearish" ++ rest) /\
       ~ (exists before rest, label = before ++ "Bullish" ++ rest)) /\
  In (sentiment_class label)
     ["border-success text-success"; "border-destructive text-destructive";
      "border-warning text-warning"] /\
  map sentiment_class [""; "bullish"; "BEARISH"; "Neutral"]
    = repeat "border-warning text-warning" 4.
Proof.
  unfold sentiment_class.
  rewrite <- !includes_spec.
  destruct (Text.includes label "Bullish") eqn:Eu;
    destruct (Text.includes label "Bearish") eqn:Ea;
    repeat split; try (intro; discriminate); try tauto;
    try (intros [? ?]; congruence); try (simpl; tauto);
    try (intuition congruence).
Qed.

Example bullish_wins_over_bearish :
  sentiment_class "Bearish turning Bullish" = "border-success text-success" /\
  sentiment_class (MarketScout.sentiment Scenario.scout_hit) = "border-success text-success".
Proof. vm_compute. split; reflexivity. Qed.

End Scout.

(** ** The landing-page animation *)

Section Animation.
Import TradingVisualization.

Lemma ticks_succ (n : nat) : forall s, ticks (S n) s = tick (ticks n s).
Proof.
  induction n as [|n IH]; intro s; [reflexivity|].
  change (ticks (S (S n)) s) with (ticks (S n) (tick s)).
  rewrite IH. reflexivity.
Qed.

Lemma tick_showing (v : nat) :
  10 <= v <= 30 ->
  tick (Inv.showing v) = Inv.showing (if Nat.eqb v 30 then 10 else v + 1).
Proof.
  intros [Hlo Hhi].
  do 10 (destruct v as [|v]; [lia|]).
  do 21 (destruct v as [|v]; [reflexivity|]).
  lia.
Qed.

Lemma succ_mod_21 (n : nat) :
  S n mod 21 = if Nat.eqb (n mod 21) 20 then 0 else n mod 21 + 1.
Proof.
  pose proof (Nat.div_mod_eq n 21) as Hn.
  pose proof (Nat.mod_upper_bound n 21 ltac:(lia)) as Hm.
  destruct (Nat.eqb_spec (n mod 21) 20) as [E|E].
  - symmetry. apply (Nat.mod_unique (S n) 21 (S (n / 21)) 0); lia.
  - symmetry. apply (Nat.mod_unique (S n) 21 (n / 21) (n mod 21 + 1)); lia.
Qed.

Lemma ticks_closed_form (n : nat) :
  ticks n initial = Inv.showing (10 + n mod 21).
Proof.
  induction n as [|n IH]; [reflexivity|].
  rewrite ticks_succ, IH.
  pose proof (Nat.mod_upper_bound n 21 ltac:(lia)) as Hm.
  rewrite tick_showing by lia. rewrite succ_mod_21.
  destruct (Nat.eqb_spec (n mod 21) 20) as [E|E].
  - rewrite E. reflexivity.
  - destruct (Nat.eqb_spec (10 + n mod 21) 30) as [E'|E']; [lia|].
    f_equal; lia.
Qed.


(** X18. At every tick the chart has a current price and a previous price
    to show: the index read from the visible slice is always inside it,
    so the header never renders an undefined price. *)
Theorem animation_price_is_always_defined (n : nat) :
  exists current previous,
    currentPrice (ticks n initial) = Some current /\
    prevPrice (ticks n initial) = Some previous /\
    In current priceData /\ In previous priceData.
Proof.
  rewrite ticks_closed_form.
  pose proof (Nat.mod_upper_bound n 21 ltac:(lia)) as Hm.
  remember (n mod 21) as m eqn:Em. clear Em.
  do 21 (destruct m as [|m];
         [eexists; eexists; split; [reflexivity|]; split; [reflexivity|];
          split; simpl; tauto|]).
  lia.
Qed.

Example signal_after_eight_ticks :
  ticks 8 initial = {| visiblePoints := 18; aiSignal := true; confidence := 87 |} /\
  ticks 21 initial = initial.
Proof. vm_compute. split; reflexivity. Qed.

End Animation.
